(** * buoy: the NOAA buoy client (src/buoy/client.py)

    A shallow embedding of [NOAAClient] and [run]: the response cache of
    [_get], the two page extractors [station] and [station_report], the
    catalog [station_list] and the batch [run], with the properties the
    specification states about them.

    Conventions.
    - A Python [str] is a [string] whose characters are code points below
      256; a Python [int] is a [Z].
    - An awaited coroutine is a computation in the monad [M]: it reads and
      updates a [world] (the files, the directories and the log of HTTP
      requests sent) and either returns a value or raises an exception.
    - [asyncio.gather] runs its coroutines one after the other, in list
      order. *)

From Stdlib Require Import ZArith Ascii String List Bool Lia.
From stdpp Require Import base option list strings gmap.

Local Open Scope string_scope.
Local Open Scope Z_scope.

(** ** Text *)

Module Text.

Definition ord (c : ascii) : Z := Z.of_N (N_of_ascii c).
Definition chr (z : Z) : ascii := ascii_of_N (Z.to_N (z mod 256)).

Definition chars (s : string) : list ascii := list_ascii_of_string s.
Definition text (l : list ascii) : string := string_of_list_ascii l.

Definition is_digit (c : ascii) : bool := (48 <=? ord c) && (ord c <=? 57).

(** [str.isspace] and the class [\s] on code points below 256. *)
Definition is_space (c : ascii) : bool :=
  let n := ord c in
  ((9 <=? n) && (n <=? 13)) || ((28 <=? n) && (n <=? 32))
  || (n =? 133) || (n =? 160).

Definition lower (c : ascii) : ascii :=
  let n := ord c in
  if (65 <=? n) && (n <=? 90) then chr (n + 32) else c.

Definition eqc (a b : ascii) : bool := Ascii.eqb a b.

(** [str.startswith] *)
Fixpoint startswith (s p : string) {struct p} : bool :=
  match p, s with
  | EmptyString, _ => true
  | String a p', String b s' => eqc a b && startswith s' p'
  | String _ _, EmptyString => false
  end.

(** [str.endswith] for a one-character suffix *)
Fixpoint endswith_char (s : string) (c : ascii) : bool :=
  match s with
  | EmptyString => false
  | String a EmptyString => eqc a c
  | String _ s' => endswith_char s' c
  end.

(** [str.lstrip(c)] for a one-character set *)
Fixpoint lstrip (c : ascii) (s : string) : string :=
  match s with
  | String a s' => if eqc a c then lstrip c s' else s
  | EmptyString => EmptyString
  end.

(** [str.split()] with no argument: the maximal runs of characters that
    are not white space. *)
Fixpoint split_ws (cur : list ascii) (l : list ascii) : list string :=
  match l with
  | [] => match cur with [] => [] | _ => [text (rev cur)] end
  | c :: l' =>
      if is_space c
      then match cur with
           | [] => split_ws [] l'
           | _ => text (rev cur) :: split_ws [] l'
           end
      else split_ws (c :: cur) l'
  end.

Definition split (s : string) : list string := split_ws [] (chars s).

(** Decimal digits of a non-negative number, most significant first. *)
Fixpoint digits_pos (fuel : nat) (n : Z) (acc : list ascii) : list ascii :=
  match fuel with
  | O => acc
  | S fuel' =>
      let acc' := chr (48 + n mod 10) :: acc in
      if n <? 10 then acc' else digits_pos fuel' (n / 10) acc'
  end.

(** [str(n)] for an [int] *)
Definition str_int (n : Z) : string :=
  let d := fun m => text (digits_pos (S (Z.to_nat (Z.log2 m))) m []) in
  if n <? 0 then String "-" (d (- n)) else d n.

(** [int(s)] for a string of decimal digits; [None] stands for
    [ValueError]. *)
Fixpoint int_digits (acc : Z) (l : list ascii) : option Z :=
  match l with
  | [] => Some acc
  | c :: l' => if is_digit c then int_digits (10 * acc + (ord c - 48)) l'
               else None
  end.

Definition int_of_str (s : string) : option Z :=
  match chars s with
  | [] => None
  | l => int_digits 0 l
  end.

(** [posixpath.join] *)
Definition join2 (path b : string) : string :=
  if startswith b "/" then b
  else if (String.eqb path "") || endswith_char path "/" then path +:+ b
  else path +:+ "/" +:+ b.

Definition posixpath_join (a : string) (p : list string) : string :=
  fold_left join2 p a.

End Text.

(** ** SHA-1 ([hashlib.sha1]) and [str.encode] *)

Module SHA1.

Definition w32 (x : Z) : Z := Z.land x 0xFFFFFFFF.

Definition rotl (n x : Z) : Z :=
  w32 (Z.lor (Z.shiftl x n) (Z.shiftr x (32 - n))).

(** [n] as [k] bytes, most significant first *)
Fixpoint be_bytes (k : nat) (n : Z) : list Z :=
  match k with
  | O => []
  | S k' => Z.land (Z.shiftr n (8 * Z.of_nat k')) 255 :: be_bytes k' n
  end.

(** The message followed by the bit 1, zero bits up to 56 modulo 64 bytes,
    and the bit length on 64 bits. *)
Definition pad (msg : list Z) : list Z :=
  let len := Z.of_nat (length msg) in
  let zeros := Z.to_nat ((55 - len) mod 64) in
  msg ++ 128 :: repeat 0 zeros ++ be_bytes 8 (8 * len).

Fixpoint be_words (fuel : nat) (l : list Z) : list Z :=
  match fuel, l with
  | S fuel', a :: b :: c :: d :: l' =>
      Z.lor (Z.shiftl a 24) (Z.lor (Z.shiftl b 16) (Z.lor (Z.shiftl c 8) d))
      :: be_words fuel' l'
  | _, _ => []
  end.

Definition words (l : list Z) : list Z := be_words (length l) l.

Record hstate := H { ha : Z; hb : Z; hc : Z; hd : Z; he : Z }.

Definition init : hstate :=
  H 0x67452301 0xEFCDAB89 0x98BADCFE 0x10325476 0xC3D2E1F0.

Definition f_k (t : Z) (b c d : Z) : Z * Z :=
  if t <? 20 then (Z.lor (Z.land b c) (Z.ldiff d b), 0x5A827999)
  else if t <? 40 then (Z.lxor b (Z.lxor c d), 0x6ED9EBA1)
  else if t <? 60
       then (Z.lor (Z.land b c) (Z.lor (Z.land b d) (Z.land c d)), 0x8F1BBCDC)
  else (Z.lxor b (Z.lxor c d), 0xCA62C1D6).

Definition nth_w (win : list Z) (i : nat) : Z := nth i win 0.

(** Rounds [t], [t+1], ... of one block; [win] holds the sixteen schedule
    words from [t] on. *)
Fixpoint rounds (n : nat) (t : Z) (win : list Z) (s : hstate) : hstate :=
  match n with
  | O => s
  | S n' =>
      let '(f, k) := f_k t (hb s) (hc s) (hd s) in
      let temp := w32 (rotl 5 (ha s) + f + he s + k + nth_w win 0) in
      let next :=
        rotl 1 (Z.lxor (nth_w win 13)
                  (Z.lxor (nth_w win 8) (Z.lxor (nth_w win 2) (nth_w win 0)))) in
      rounds n' (t + 1) (tl win ++ [next])
        (H temp (ha s) (rotl 30 (hb s)) (hc s) (hd s))
  end.

Definition block (s : hstate) (ws : list Z) : hstate :=
  let r := rounds 80 0 ws s in
  H (w32 (ha s + ha r)) (w32 (hb s + hb r)) (w32 (hc s + hc r))
    (w32 (hd s + hd r)) (w32 (he s + he r)).

Fixpoint blocks (fuel : nat) (s : hstate) (ws : list Z) : hstate :=
  match fuel, ws with
  | S fuel', _ :: _ => blocks fuel' (block s (firstn 16 ws)) (skipn 16 ws)
  | _, _ => s
  end.

Definition digest (msg : list Z) : hstate :=
  let ws := words (pad msg) in blocks (length ws) init ws.

Definition hex_digit (n : Z) : ascii :=
  if n <? 10 then Text.chr (48 + n) else Text.chr (87 + n).

Fixpoint hex (k : nat) (n : Z) : list ascii :=
  match k with
  | O => []
  | S k' => hex_digit (Z.land (Z.shiftr n (4 * Z.of_nat k')) 15) :: hex k' n
  end.

Definition hexdigest (msg : list Z) : string :=
  let s := digest msg in
  Text.text (hex 8 (ha s) ++ hex 8 (hb s) ++ hex 8 (hc s) ++ hex 8 (hd s)
             ++ hex 8 (he s)).

(** [str.encode()]: UTF-8, for code points below 256 *)
Definition encode (s : string) : list Z :=
  flat_map (fun c => let n := Text.ord c in
                     if n <? 128 then [n]
                     else [Z.lor 192 (Z.shiftr n 6); Z.lor 128 (Z.land n 63)])
           (Text.chars s).

End SHA1.

(** ** Python values: [repr] of the query parameters *)

Module Py.

Inductive value :=
| Int (n : Z)
| Str (s : string).

(** A [dict] with [str] keys, in insertion order. *)
Definition dict := list (string * value).

Definition hex2 (n : Z) : list ascii := SHA1.hex 2 n.

Definition printable (n : Z) : bool :=
  negb (((128 <=? n) && (n <=? 160)) || (n =? 173)).

Definition has (c : ascii) (s : string) : bool :=
  existsb (Text.eqc c) (Text.chars s).

Definition dquote : ascii := "034"%char.

Definition quote_of (s : string) : ascii :=
  if has "'" s && negb (has dquote s) then dquote else "'"%char.

Definition repr_char (q c : ascii) : list ascii :=
  let n := Text.ord c in
  if Text.eqc c q || Text.eqc c "\" then ["\"%char; c]
  else if n =? 9 then ["\"; "t"]%char
  else if n =? 10 then ["\"; "n"]%char
  else if n =? 13 then ["\"; "r"]%char
  else if (n <? 32) || (n =? 127) then ["\"; "x"]%char ++ hex2 n
  else if n <? 127 then [c]
  else if printable n then [c]
  else ["\"; "x"]%char ++ hex2 n.

Definition repr_str (s : string) : string :=
  let q := quote_of s in
  Text.text (q :: flat_map (repr_char q) (Text.chars s) ++ [q]).

Definition repr (v : value) : string :=
  match v with
  | Int n => Text.str_int n
  | Str s => repr_str s
  end.

Definition repr_item (kv : string * value) : string :=
  repr_str (fst kv) +:+ ": " +:+ repr (snd kv).

Fixpoint join (sep : string) (l : list string) : string :=
  match l with
  | [] => ""
  | [x] => x
  | x :: l' => x +:+ sep +:+ join sep l'
  end.

Definition repr_dict (d : dict) : string :=
  "{" +:+ join ", " (map repr_item d) +:+ "}".

(** What may follow a value in the text of a [dict]: nothing, or a comma. *)
Definition closes (t : list ascii) : Prop :=
  t = [] \/ exists t', t = ","%char :: t'.

(** The escapes of two different characters never start alike: a check
    over all pairs of characters. *)
Definition all_chars : list ascii := map ascii_of_nat (seq 0 256).

Fixpoint prefixb (l1 l2 : list ascii) : bool :=
  match l1, l2 with
  | [], _ => true
  | a :: l1', b :: l2' => Text.eqc a b && prefixb l1' l2'
  | _ :: _, [] => false
  end.

Definition prefix_code (q : ascii) : bool :=
  forallb (fun c1 =>
             negb (prefixb (repr_char q c1) [])
             && negb (prefixb [q] (repr_char q c1))
             && forallb (fun c2 => Text.eqc c1 c2
                                   || negb (prefixb (repr_char q c1) (repr_char q c2)))
                  all_chars)
    all_chars.

End Py.

(** ** Regular expressions ([re]): a backtracking matcher

    Alternatives are tried in order, [+] is greedy, and the first
    successful path wins, as in Python's [re]. *)

Module Re.

Inductive re :=
| Eps
| Cls (p : ascii -> bool)          (* one character of a class *)
| Seq (r1 r2 : re)
| Alt (r1 r2 : re)
| Plus (p : ascii -> bool)         (* [p+] *)
| Group (i : nat) (r : re)         (* capturing group number [i] *)
| Bol                              (* [^] *)
| Eol.                             (* [$] *)

Definition caps := list (nat * string).

Fixpoint plus {A} (p : ascii -> bool) (s : list ascii)
    (k : list ascii -> option A) : option A :=
  match s with
  | c :: s' =>
      if p c
      then match plus p s' k with
           | Some x => Some x
           | None => k s'
           end
      else None
  | [] => None
  end.

(** [mt r bol s cs k]: match [r] at the head of [s]; [bol] tells whether
    [s] is the whole subject; [k] is the rest of the pattern. *)
Fixpoint mt {A} (r : re) (bol : bool) (s : list ascii) (cs : caps)
    (k : bool -> list ascii -> caps -> option A) : option A :=
  match r with
  | Eps => k bol s cs
  | Cls p =>
      match s with
      | c :: s' => if p c then k false s' cs else None
      | [] => None
      end
  | Seq r1 r2 => mt r1 bol s cs (fun b s' cs' => mt r2 b s' cs' k)
  | Alt r1 r2 =>
      match mt r1 bol s cs k with
      | Some x => Some x
      | None => mt r2 bol s cs k
      end
  | Plus p => plus p s (fun s' => k false s' cs)
  | Group i r1 =>
      mt r1 bol s cs
        (fun b s' cs' =>
           k b s' ((i, Text.text (firstn (length s - length s') s)) :: cs'))
  | Bol => if bol then k bol s cs else None
  | Eol =>
      match s with
      | [] => k bol s cs
      | [c] => if Text.eqc c "010" then k bol s cs else None
      | _ => None
      end
  end.

Fixpoint search_from (r : re) (bol : bool) (s : list ascii) : option caps :=
  match mt r bol s [] (fun _ _ cs => Some cs) with
  | Some cs => Some cs
  | None =>
      match s with
      | [] => None
      | _ :: s' => search_from r false s'
      end
  end.

(** [re.search(r, s)]: the groups of the leftmost match *)
Definition search (r : re) (s : string) : option caps :=
  search_from r true (Text.chars s).

(** [r.match(s)] together with the text left after the match *)
Definition match_prefix (r : re) (s : string) : option (caps * string) :=
  mt r true (Text.chars s) [] (fun _ s' cs => Some (cs, Text.text s')).

(** [m.group(i)] *)
Fixpoint group (i : nat) (cs : caps) : string :=
  match cs with
  | [] => ""
  | (j, g) :: cs' => if Nat.eqb i j then g else group i cs'
  end.

Definition chr_is (c : ascii) : ascii -> bool := Text.eqc c.
Definition is_ci (c : ascii) : ascii -> bool :=
  fun x => Text.eqc (Text.lower c) (Text.lower x).
Definition any_of (s : string) : ascii -> bool :=
  fun x => existsb (Text.eqc x) (Text.chars s).
Definition dot : ascii -> bool := fun x => negb (Text.eqc x "010").
Definition digit : ascii -> bool := Text.is_digit.
Definition range (a b : ascii) : ascii -> bool :=
  fun x => (Text.ord a <=? Text.ord x) && (Text.ord x <=? Text.ord b).

Fixpoint seq (l : list re) : re :=
  match l with
  | [] => Eps
  | [r] => r
  | r :: l' => Seq r (seq l')
  end.

Fixpoint alt (l : list re) : re :=
  match l with
  | [] => Eps
  | [r] => r
  | r :: l' => Alt r (alt l')
  end.

Definition lit (s : string) : re := seq (map (fun c => Cls (chr_is c)) (Text.chars s)).
Definition lit_ci (s : string) : re :=
  seq (map (fun c => Cls (is_ci c)) (Text.chars s)).

End Re.

(** ** The parse tree of a page ([bs4]) *)

Module Soup.

#[local] Set Warnings "-register-all".

Inductive node :=
| Tag (name : string) (attrs : list (string * string)) (children : list node)
| NavigableString (s : string).

Definition name_of (n : node) : string :=
  match n with
  | Tag nm _ _ => nm
  | NavigableString _ => ""
  end.

(** [tag.get(key)] *)
Definition get (n : node) (key : string) : option string :=
  match n with
  | Tag _ attrs _ =>
      snd <$> List.find (fun kv => String.eqb (fst kv) key) attrs
  | NavigableString _ => None
  end.

(** [tag.get_text()]: the strings below the tag, in document order *)
Fixpoint get_text (n : node) : string :=
  match n with
  | NavigableString s => s
  | Tag _ _ cs =>
      (fix go (l : list node) : string :=
         match l with
         | [] => ""
         | c :: l' => get_text c +:+ go l'
         end) cs
  end.

(** The tags below [parent] in document order, each with its own parent. *)
Fixpoint descendants (parent : node) : list (node * node) :=
  match parent with
  | NavigableString _ => []
  | Tag _ _ cs =>
      (fix go (l : list node) : list (node * node) :=
         match l with
         | [] => []
         | c :: l' =>
             match c with
             | Tag _ _ _ => (parent, c) :: descendants c ++ go l'
             | NavigableString _ => go l'
             end
         end) cs
  end.

(** [tag.findAll(name, test)], every hit paired with its [.parent] *)
Definition find_all (n : node) (name : string) (test : node -> bool)
  : list (node * node) :=
  List.filter (fun pe => String.eqb (name_of (snd pe)) name && test (snd pe))
    (descendants n).

(** [tag.find(name, test)] *)
Definition find (n : node) (name : string) (test : node -> bool)
  : option (node * node) :=
  head (find_all n name test).

(** [href=True] *)
Definition has_attr (key : string) (n : node) : bool :=
  match get n key with Some _ => true | None => false end.

(** [{"id": v}]: the attribute equals [v] *)
Definition attr_is (key v : string) (n : node) : bool :=
  match get n key with Some x => String.eqb x v | None => false end.

(** [{"class": v}]: [class] is a list of tokens, one of which equals [v] *)
Definition class_is (v : string) (n : node) : bool :=
  match get n "class" with
  | Some x => existsb (String.eqb v) (Text.split x)
  | None => false
  end.

Definition any (_ : node) : bool := true.

End Soup.

(** ** [datetime.datetime.strptime] *)

Module DT.

Record datetime := mk {
  year : Z; month : Z; day : Z; hour : Z; minute : Z
}.

Import Re.

(** The pattern [_strptime] builds for ["%H%M %Z on %m/%d/%Y"], compiled
    with [re.IGNORECASE]; the zone names are those of a host whose local
    zone is UTC.  Groups: 1 [H], 2 [M], 3 [Z], 4 [m], 5 [d], 6 [Y]. *)
Definition d := Cls digit.
Definition ws := Plus Text.is_space.

Definition format_regex : re :=
  seq [ Group 1 (alt [ Seq (Cls (chr_is "2")) (Cls (range "0" "3"));
                       Seq (Cls (range "0" "1")) d;
                       d ]);
        Group 2 (alt [ Seq (Cls (range "0" "5")) d; d ]);
        ws;
        Group 3 (alt [ lit_ci "utc"; lit_ci "gmt" ]);
        ws; lit_ci "on"; ws;
        Group 4 (alt [ Seq (Cls (chr_is "1")) (Cls (range "0" "2"));
                       Seq (Cls (chr_is "0")) (Cls (range "1" "9"));
                       Cls (range "1" "9") ]);
        Cls (chr_is "/");
        Group 5 (alt [ Seq (Cls (chr_is "3")) (Cls (range "0" "1"));
                       Seq (Cls (range "1" "2")) d;
                       Seq (Cls (chr_is "0")) (Cls (range "1" "9"));
                       Cls (range "1" "9");
                       Seq (Cls (chr_is " ")) (Cls (range "1" "9")) ]);
        Cls (chr_is "/");
        Group 6 (seq [d; d; d; d]) ].

(** [int(s)] on a group: leading blanks are skipped *)
Definition int_group (i : nat) (cs : caps) : Z :=
  default 0 (Text.int_of_str (Text.lstrip " " (group i cs))).

Definition is_leap (y : Z) : bool :=
  (y mod 4 =? 0) && (negb (y mod 100 =? 0) || (y mod 400 =? 0)).

Definition days_in_month (y m : Z) : Z :=
  if m =? 2 then (if is_leap y then 29 else 28)
  else if (m =? 4) || (m =? 6) || (m =? 9) || (m =? 11) then 30
  else 31.

(** The range checks of the [datetime] constructor *)
Definition valid (t : datetime) : bool :=
  (1 <=? year t) && (year t <=? 9999)
  && (1 <=? month t) && (month t <=? 12)
  && (1 <=? day t) && (day t <=? days_in_month (year t) (month t))
  && (0 <=? hour t) && (hour t <=? 23)
  && (0 <=? minute t) && (minute t <=? 59).

(** [datetime.datetime.strptime(s, "%H%M %Z on %m/%d/%Y")]; [None] stands
    for [ValueError]. *)
Definition strptime (s : string) : option datetime :=
  match match_prefix format_regex s with
  | Some (cs, rest) =>
      if String.eqb rest "" then
        let t := mk (int_group 6 cs) (int_group 4 cs) (int_group 5 cs)
                    (int_group 1 cs) (int_group 2 cs) in
        if valid t then Some t else None
      else None
  | None => None
  end.

(** Days from 1970-01-01 to the date, proleptic Gregorian calendar *)
Definition days_from_civil (y m d : Z) : Z :=
  let y' := if m <=? 2 then y - 1 else y in
  let era := y' / 400 in
  let yoe := y' - era * 400 in
  let mp := (m + 9) mod 12 in
  let doy := (153 * mp + 2) / 5 + d - 1 in
  let doe := yoe * 365 + yoe / 4 - yoe / 100 + doy in
  era * 146097 + doe - 719468.

(** [t.timestamp()] of a naive [datetime] on a host whose local zone is
    UTC, as Python prints the float. *)
Definition timestamp_str (t : datetime) : string :=
  Text.str_int (((days_from_civil (year t) (month t) (day t) * 24 + hour t) * 60
                 + minute t) * 60) +:+ ".0".

End DT.

(** ** Records of the client *)

Record Station := mkStation {
  id : Z;
  name : string;
  rss : string;
  latitude : string;
  longitude : string
}.

(** The measurement fields hold what the scan assigns to them: the list of
    tokens of the value cell. *)
Record StationReport := mkReport {
  timestamp : DT.datetime;
  wave_height : option (list string);
  wave_dominant_period : option (list string);
  wave_average_period : option (list string);
  wave_mean_degrees : option (list string);
  water_temperature : option (list string)
}.

(** [StationReport(timestamp)] *)
Definition new_report (t : DT.datetime) : StationReport :=
  mkReport t None None None None None.

(** ** The world: files, directories, requests sent *)

Inductive exn :=
| FileNotFoundError
| FileExistsError
| UnicodeDecodeError
| UnpicklingError
| TypeError
| ValueError
| AttributeError
| ClientConnectionError
| TimeoutError.

#[global] Instance exn_eq_dec : EqDecision exn.
Proof. solve_decision. Defined.

(** What a file holds: text, or the pickle of an object. *)
Inductive content :=
| Text (s : string)
| PickledStation (s : Station)
| PickledReport (r : StationReport).

Definition request : Type := string * Py.dict.

(** What [session.get] does with a request: a response with its status and
    text, or a failure of the transport. *)
Inductive outcome :=
| Response (status : Z) (text : string)
| Failure (e : exn).

Record world := mkWorld {
  files : gmap string content;
  dirs : gset string;
  sent : list request
}.

Inductive result (A : Type) :=
| Ok (a : A)
| Raise (e : exn).
Arguments Ok {A} a.
Arguments Raise {A} e.

Definition M (A : Type) : Type := world -> result A * world.

Definition ret {A} (a : A) : M A := fun w => (Ok a, w).
Definition raise {A} (e : exn) : M A := fun w => (Raise e, w).
Definition bind {A B} (m : M A) (k : A -> M B) : M B :=
  fun w => match m w with
           | (Ok a, w') => k a w'
           | (Raise e, w') => (Raise e, w')
           end.

Notation "x <- m ;; k" := (bind m (fun x => k))
  (at level 100, m at next level, right associativity).
Notation "m ;;; k" := (bind m (fun _ => k))
  (at level 100, right associativity).

(** [try: m  except e: h] *)
Definition try_except {A} (m : M A) (e : exn) (h : M A) : M A :=
  fun w => match m w with
           | (Ok a, w') => (Ok a, w')
           | (Raise e', w') => if decide (e' = e) then h w' else (Raise e', w')
           end.

(** [for x in l: acc = body(x, acc)] *)
Fixpoint for_each {A S} (l : list A) (body : A -> S -> M S) (acc : S) : M S :=
  match l with
  | [] => ret acc
  | x :: l' => acc' <- body x acc ;; for_each l' body acc'
  end.

(** [asyncio.gather]: the results in the order of the tasks; an exception
    of a task is the outcome of the whole. *)
Fixpoint gather {A} (tasks : list (M A)) : M (list A) :=
  match tasks with
  | [] => ret []
  | t :: tasks' => r <- t ;; rs <- gather tasks' ;; ret (r :: rs)
  end.

(** *** Files *)

(** [posixpath.dirname] *)
Fixpoint drop_name (l : list ascii) : list ascii :=
  match l with
  | [] => []
  | c :: l' => if Text.eqc c "/" then l' else drop_name l'
  end.

Definition dirname (path : string) : string :=
  Text.text (rev (drop_name (rev (Text.chars path)))).

(** A file name: a text without a slash. *)
Definition no_slash (l : list ascii) : Prop :=
  Forall (fun c => Text.eqc c "/" = false) l.

(** [open(path, "r")] and [read] *)
Definition read_text (path : string) : M string :=
  fun w => match files w !! path with
           | Some (Text s) => (Ok s, w)
           | Some _ => (Raise UnicodeDecodeError, w)
           | None => (Raise FileNotFoundError, w)
           end.

(** [open(path, "rb")] and [read] *)
Definition read_bytes (path : string) : M content :=
  fun w => match files w !! path with
           | Some c => (Ok c, w)
           | None => (Raise FileNotFoundError, w)
           end.

(** [open(path, "w")] or [open(path, "wb")], and [write]: the directory of
    the file has to exist. *)
Definition write_file (path : string) (c : content) : M unit :=
  fun w => if decide (dirname path ∈ dirs w)
           then (Ok tt, mkWorld (<[path := c]> (files w)) (dirs w) (sent w))
           else (Raise FileNotFoundError, w).

(** [os.makedirs(parent / leaf)] *)
Definition makedirs (parent leaf : string) : M unit :=
  fun w => let path := parent +:+ "/" +:+ leaf in
           if decide (path ∈ dirs w)
           then (Raise FileExistsError, w)
           else (Ok tt, mkWorld (files w) ({[parent; path]} ∪ dirs w) (sent w)).

(** ** The client *)

Section Client.

(** The tree [bs4] builds from a page with the [lxml] tree builder: its
    root stands for the [BeautifulSoup] object. *)
Variable lxml : string -> Soup.node.

(** The remote service: the outcome of a request, given the requests sent
    before it. *)
Variable http : list request -> request -> outcome.

(** [BeautifulSoup(markup)]: the constructor takes the length of its
    argument, which raises [TypeError] on [None]. *)
Definition BeautifulSoup (markup : option string) : M Soup.node :=
  match markup with
  | None => raise TypeError
  | Some s => ret (lxml s)
  end.

(** [self.session.get(url, params=params)] *)
Definition session_get (url : string) (params : Py.dict) : M (Z * string) :=
  fun w =>
    let w' := mkWorld (files w) (dirs w) (sent w ++ [(url, params)]) in
    match http (sent w) (url, params) with
    | Response status text => (Ok (status, text), w')
    | Failure e => (Raise e, w')
    end.

Definition base_url : string := "https://www.ndbc.noaa.gov".

Definition _url (path : list string) : string :=
  Text.posixpath_join base_url path.

(** The text that is hashed, [f"{url}.{params}"] *)
Definition key_text (url : string) (params : Py.dict) : string :=
  url +:+ "." +:+ Py.repr_dict params.

Definition cache_key (url : string) (params : Py.dict) : string :=
  SHA1.hexdigest (SHA1.encode (key_text url params)).

Definition cache_file (url : string) (params : Py.dict) : string :=
  Text.posixpath_join "." ["cache"; cache_key url params +:+ ".html"].

Definition _get (url : string) (params : Py.dict) : M (option string) :=
  cached <- try_except
              (body <- read_text (cache_file url params) ;; ret (Some body))
              FileNotFoundError (ret None) ;;
  match cached with
  | Some body => ret (Some body)
  | None =>
      response <- session_get url params ;;
      if fst response =? 200 then
        let retval := snd response in
        write_file (cache_file url params) (Text retval) ;;;
        ret (Some retval)
      else ret None
  end.

(** [if html:] *)
Definition truthy (html : option string) : option string :=
  match html with
  | Some s => if String.eqb s "" then None else Some s
  | None => None
  end.

Definition station_params (station_id : Z) : Py.dict :=
  [("station", Py.Int station_id)].

(** [([\d\.]+ [NS]) ([\d\.]+ [EW])] *)
Definition lat_long_re : Re.re :=
  let num := Re.Plus (fun c => Re.digit c || Re.chr_is "." c) in
  Re.seq [ Re.Group 1 (Re.seq [num; Re.lit " "; Re.Cls (Re.any_of "NS")]);
           Re.lit " ";
           Re.Group 2 (Re.seq [num; Re.lit " "; Re.Cls (Re.any_of "EW")]) ].

Definition station_file (station_id : Z) : string :=
  "stations/" +:+ Text.str_int station_id +:+ ".pickle".

(** [pickle.loads(data)] *)
Definition loads_station (data : content) : M Station :=
  match data with
  | PickledStation s => ret s
  | _ => raise UnpicklingError
  end.

(** The body of the loop over the anchors of [station] *)
Definition station_anchor (station_id : Z) (soup : Soup.node)
    (pa : Soup.node * Soup.node) (station : option Station)
  : M (option Station) :=
  let '(parent, a) := pa in
  let href := default "" (Soup.get a "href") in
  if String.eqb href ("/data/latest_obs/" +:+ Text.str_int station_id +:+ ".rss")
  then
    let rss := _url [Text.lstrip "/" href] in
    let name := Soup.get_text parent in
    match Soup.find soup "div" (Soup.attr_is "id" "stn_metadata") with
    | None => raise AttributeError
    | Some (_, div) =>
        let station_data := Soup.get_text div in
        match Re.search lat_long_re station_data with
        | Some m =>
            let s := mkStation station_id name rss (Re.group 1 m) (Re.group 2 m) in
            write_file (station_file station_id) (PickledStation s) ;;;
            ret (Some s)
        | None => ret station
        end
    end
  else ret station.

Definition station (station_id : Z) : M (option Station) :=
  loaded <- try_except
              (data <- read_bytes (station_file station_id) ;;
               s <- loads_station data ;; ret (Some s))
              FileNotFoundError (ret None) ;;
  match loaded with
  | Some s => ret (Some s)
  | None =>
      let url := _url ["station_page.php"] in
      html <- _get url (station_params station_id) ;;
      match truthy html with
      | Some page =>
          soup <- BeautifulSoup (Some page) ;;
          for_each (Soup.find_all soup "a" (Soup.has_attr "href"))
            (station_anchor station_id soup) None
      | None => ret None
      end
  end.

(** [(\d{4} GMT .+):$] *)
Definition caption_re : Re.re :=
  let d := Re.Cls Re.digit in
  Re.seq [ Re.Group 1 (Re.seq [d; d; d; d; Re.lit " GMT "; Re.Plus Re.dot]);
           Re.lit ":"; Re.Eol ].

(** [^label] *)
Definition label_re (label : string) : Re.re := Re.Seq Re.Bol (Re.lit label).

(** [(\d+ deg)] *)
Definition deg_re : Re.re :=
  Re.Group 1 (Re.Seq (Re.Plus Re.digit) (Re.lit " deg")).

Definition matches (r : Re.re) (s : string) : bool :=
  match Re.search r s with Some _ => true | None => false end.

(** The body of the loop over the rows of the report table *)
Definition scan_row (report : StationReport) (row : Soup.node) : StationReport :=
  let cells := map snd (Soup.find_all row "td" Soup.any) in
  match cells with
  | _ :: c1 :: c2 :: _ =>
      let key := Soup.get_text c1 in
      let value := Text.split (Soup.get_text c2) in
      if matches (label_re "Wave Height") key then
        mkReport (timestamp report) (Some value) (wave_dominant_period report)
          (wave_average_period report) (wave_mean_degrees report)
          (water_temperature report)
      else if matches (label_re "Dominant Wave Period") key then
        mkReport (timestamp report) (wave_height report) (Some value)
          (wave_average_period report) (wave_mean_degrees report)
          (water_temperature report)
      else if matches (label_re "Average Period") key then
        mkReport (timestamp report) (wave_height report)
          (wave_dominant_period report) (Some value) (wave_mean_degrees report)
          (water_temperature report)
      else if matches (label_re "Mean Wave Direction") key then
        match Re.search deg_re (Soup.get_text c2) with
        | Some m =>
            mkReport (timestamp report) (wave_height report)
              (wave_dominant_period report) (wave_average_period report)
              (Some (Text.split (Re.group 1 m))) (water_temperature report)
        | None => report
        end
      else if matches (label_re "Water Temperature") key then
        mkReport (timestamp report) (wave_height report)
          (wave_dominant_period report) (wave_average_period report)
          (wave_mean_degrees report) (Some value)
      else report
  | _ => report
  end.

Definition report_dir (station_id : Z) : string :=
  "reports/" +:+ Text.str_int station_id.

Definition report_file (station_id : Z) (t : DT.datetime) : string :=
  report_dir station_id +:+ "/" +:+ DT.timestamp_str t +:+ ".pickle".

Definition station_report (station_id : Z) : M (option StationReport) :=
  let url := _url ["station_page.php"] in
  html <- _get url (station_params station_id) ;;
  match truthy html with
  | None => ret None
  | Some page =>
      soup <- BeautifulSoup (Some page) ;;
      match Soup.find soup "caption" (Soup.class_is "titleDataHeader") with
      | None => ret None
      | Some (table, caption) =>
          match Re.search caption_re (Soup.get_text caption) with
          | None => ret None
          | Some m =>
              match DT.strptime (Re.group 1 m) with
              | None => raise ValueError
              | Some t =>
                  let report :=
                    fold_left scan_row
                      (map snd (Soup.find_all table "tr" Soup.any))
                      (new_report t) in
                  try_except (makedirs "reports" (Text.str_int station_id))
                    FileExistsError (ret tt) ;;;
                  write_file (report_file station_id t) (PickledReport report) ;;;
                  ret (Some report)
              end
          end
      end
  end.

(** [station_page.php\?station=(\d+)$] *)
Definition station_href_re : Re.re :=
  Re.seq [ Re.lit "station_page"; Re.Cls Re.dot; Re.lit "php?station=";
           Re.Group 1 (Re.Plus Re.digit); Re.Eol ].

(** The body of the loop over the anchors of [station_list] *)
Definition list_anchor (stations : list Z) (a : Soup.node) : list Z :=
  match Re.search station_href_re (default "" (Soup.get a "href")) with
  | Some m =>
      match Text.int_of_str (Re.group 1 m) with
      | Some station_id => stations ++ [station_id]
      | None => stations
      end
  | None => stations
  end.

Definition station_list : M (list Z) :=
  let url := _url ["to_station.shtml"] in
  html <- _get url [] ;;
  soup <- BeautifulSoup html ;;
  ret (fold_left list_anchor
         (map snd (Soup.find_all soup "a" (Soup.has_attr "href"))) []).

(** [{station_id: report for station_id, report in zip(stations, result)}] *)
Definition put (d : gmap Z (option StationReport)) (kv : Z * option StationReport)
  : gmap Z (option StationReport) :=
  <[fst kv := snd kv]> d.

Definition reports_dict (stations : list Z) (result : list (option StationReport))
  : gmap Z (option StationReport) :=
  fold_left put (zip stations result) ∅.

Definition run : M (gmap Z (option StationReport)) :=
  stations <- station_list ;;
  result <- gather (map station_report stations) ;;
  ret (reports_dict stations result).

End Client.

(** ** Observations used in the statements *)

(** The label and the value text of a table row, as the scan reads them:
    the second and the third of its cells. *)
Definition row_cells (row : Soup.node) : option (string * string) :=
  match map snd (Soup.find_all row "td" Soup.any) with
  | _ :: c1 :: c2 :: _ => Some (Soup.get_text c1, Soup.get_text c2)
  | _ => None
  end.



(** The station number an anchor of the index page stands for. *)
Definition anchor_station (a : Soup.node) : option Z :=
  m ← Re.search station_href_re (default "" (Soup.get a "href"));
  Text.int_of_str (Re.group 1 m).

(** The anchor [station] looks for. *)
Definition is_feed_anchor (station_id : Z) (a : Soup.node) : bool :=
  String.eqb (default "" (Soup.get a "href"))
    ("/data/latest_obs/" +:+ Text.str_int station_id +:+ ".rss").

Definition page_url : string := _url ["station_page.php"].
Definition index_url : string := _url ["to_station.shtml"].

(** The world after a request has been sent and nothing else changed. *)
Definition with_request (w : world) (url : string) (params : Py.dict) : world :=
  mkWorld (files w) (dirs w) (sent w ++ [(url, params)]).

(** ** A small site, for the examples *)

Module Site.

Import Soup.

Definition txt (s : string) : node := NavigableString s.
Definition el (name : string) (children : list node) : node := Tag name [] children.
Definition a_href (href label : string) : node :=
  Tag "a" [("href", href)] [txt label].
Definition document (body : list node) : node :=
  Tag "[document]" [] [el "html" [el "body" body]].

Definition row (label value : string) : node :=
  el "tr" [el "td" [el "img" []]; el "td" [txt label]; el "td" [txt value]].

Definition caption (text : string) : node :=
  Tag "caption" [("class", "titleDataHeader")]
    [txt "Conditions at 46086 as of"; el "br" []; txt text].

(** The index page: station 46086 is listed twice. *)
Definition index_html : string :=
  "<a href='station_page.php?station=46086'>46086</a>" +:+
  "<a href='radial_search.php'>Search</a>" +:+
  "<a href='station_page.php?station=46086'>Tanner Bank</a>" +:+
  "<a href='station_page.php?station=41001'>41001</a>".

Definition index_doc : node :=
  document [ a_href "station_page.php?station=46086" "46086";
             a_href "radial_search.php" "Search";
             a_href "station_page.php?station=46086" "Tanner Bank";
             a_href "station_page.php?station=41001" "41001" ].

(** A station page with its feed anchor, its metadata and a report. *)
Definition report_html : string :=
  "<h1><a href='/data/latest_obs/46086.rss'>RSS</a> Station 46086</h1>" +:+
  "<div id='stn_metadata'>Owned by NDBC 32.491 N 118.035 W</div>" +:+
  "<table><caption class='titleDataHeader'>Conditions at 46086 as of<br>" +:+
  "2050 GMT on 11/04/2019:</caption>" +:+
  "<tr><td><img></td><td>Wave Height</td><td>4.2 ft</td></tr>" +:+
  "<tr><td><img></td><td>Air Pressure</td><td>30.1 in</td></tr>" +:+
  "<tr><td><img></td><td>Mean Wave Direction</td>" +:+
  "<td>(from the NNE) some text 38 deg</td></tr></table>".

Definition report_doc : node :=
  document [ el "h1" [a_href "/data/latest_obs/46086.rss" "RSS"; txt " Station 46086"];
             Tag "div" [("id", "stn_metadata")] [txt "Owned by NDBC 32.491 N 118.035 W"];
             el "table" [ caption "2050 GMT on 11/04/2019:";
                          row "Wave Height" "4.2 ft";
                          row "Air Pressure" "30.1 in";
                          row "Mean Wave Direction" "(from the NNE) some text 38 deg" ] ].

(** A caption with the marker and a time, and no date. *)
Definition boat_html : string :=
  "<table><caption class='titleDataHeader'>Conditions at 46086 as of<br>" +:+
  "1234 GMT whenever on a boat:</caption></table>".

Definition boat_doc : node :=
  document [ el "table" [ caption "1234 GMT whenever on a boat:" ] ].

(** A report table without any of the five rows. *)
Definition bare_html : string :=
  "<table><caption class='titleDataHeader'>Conditions at 46086 as of<br>" +:+
  "2050 GMT on 11/04/2019:</caption>" +:+
  "<tr><td><img></td><td>Air Pressure</td><td>30.1 in</td></tr>" +:+
  "<tr><td>no data</td></tr></table>".

Definition bare_doc : node :=
  document [ el "table" [ caption "2050 GMT on 11/04/2019:";
                          row "Air Pressure" "30.1 in";
                          el "tr" [el "td" [txt "no data"]] ] ].

(** A station page with the feed anchor and without the metadata block. *)
Definition nometa_html : string :=
  "<h1><a href='/data/latest_obs/41001.rss'>RSS</a> Station 41001</h1>".

Definition nometa_doc : node :=
  document [ el "h1" [a_href "/data/latest_obs/41001.rss" "RSS"; txt " Station 41001"] ].

(** A station page with the metadata block and no coordinates in it. *)
Definition nocoord_html : string :=
  "<h1><a href='/data/latest_obs/41001.rss'>RSS</a> Station 41001</h1>" +:+
  "<div id='stn_metadata'>Owned by NDBC</div>".

Definition nocoord_doc : node :=
  document [ el "h1" [a_href "/data/latest_obs/41001.rss" "RSS"; txt " Station 41001"];
             Tag "div" [("id", "stn_metadata")] [txt "Owned by NDBC"] ].

Definition lxml (markup : string) : node :=
  if String.eqb markup index_html then index_doc
  else if String.eqb markup report_html then report_doc
  else if String.eqb markup boat_html then boat_doc
  else if String.eqb markup bare_html then bare_doc
  else if String.eqb markup nometa_html then nometa_doc
  else if String.eqb markup nocoord_html then nocoord_doc
  else document [].

(** The service answers the index page, the page of station 46086, and
    [other] for every other station. *)
Definition http (other : outcome) (_ : list request) (rq : request) : outcome :=
  if String.eqb (fst rq) index_url then Response 200 index_html
  else match snd rq with
       | [(_, Py.Int 46086)] => Response 200 report_html
       | _ => other
       end.

(** Nothing cached yet; the cache and station directories exist. *)
Definition fresh : world := mkWorld ∅ {["./cache"; "stations"]} [].

(** No cache directory. *)
Definition bare : world := mkWorld ∅ ∅ [].

End Site.

(** ** Further observations *)

(** A lower-case hexadecimal digit *)
Definition is_hex (c : ascii) : bool :=
  Text.is_digit c || ((97 <=? Text.ord c) && (Text.ord c <=? 102)).

(** A token of a value cell: not empty, no white space in it. *)
Definition token_ok (tok : string) : Prop :=
  tok <> "" /\ Forall (fun c => Text.is_space c = false) (Text.chars tok).

Definition field_ok (field : option (list string)) : Prop :=
  match field with
  | Some toks => Forall token_ok toks
  | None => True
  end.

(** Every measurement of the report is absent or a list of tokens. *)
Definition tokenized (r : StationReport) : Prop :=
  field_ok (wave_height r) /\ field_ok (wave_dominant_period r)
  /\ field_ok (wave_average_period r) /\ field_ok (wave_mean_degrees r)
  /\ field_ok (water_temperature r).

(** The label of the row, if it has its three cells, starts with [label]. *)
Definition labelled (label : string) (row : Soup.node) : bool :=
  match row_cells row with
  | Some (key, _) => Text.startswith key label
  | None => false
  end.

(** The feed address [station] builds for a station. *)
Definition feed_url (station_id : Z) : string :=
  "https://www.ndbc.noaa.gov/data/latest_obs/" +:+ Text.str_int station_id +:+ ".rss".

(** What [station] has put into a descriptor it built from the page
    [soup]. *)
Definition built_from (station_id : Z) (soup : Soup.node) (s : Station) : Prop :=
  id s = station_id
  /\ rss s = feed_url station_id
  /\ exists p div m,
       Soup.find soup "div" (Soup.attr_is "id" "stn_metadata") = Some (p, div)
       /\ Re.search lat_long_re (Soup.get_text div) = Some m
       /\ latitude s = Re.group 1 m /\ longitude s = Re.group 2 m.

(** ** The radial search ([NOAAClient.search]) *)

Definition search_url : string := Text.posixpath_join base_url ["radial_search.php"].

Definition search_params (latitude longitude : Py.value) (distance : Z) : Py.dict :=
  [("lat1", latitude); ("lon1", longitude); ("dist", Py.Int distance);
   ("uom", Py.Str "E")].

(** [search(latitude, longitude, distance)]; [distance] is 250 when the
    caller gives none. *)
Definition search (http : list request -> request -> outcome)
    (latitude longitude : Py.value) (distance : Z) : M (option string) :=
  _get http search_url (search_params latitude longitude distance).

(** ** The upload (src/buoy/update.py) *)

Module Json.

#[local] Set Warnings "-register-all".

(** The objects that are serialized. *)
Inductive pyobj :=
| ONone
| OInt (n : Z)
| OStr (s : string)
| OList (l : list pyobj)
| ODict (d : list (string * pyobj))
| ODatetime (t : DT.datetime).

(** One character of a JSON string, [ensure_ascii] being on. *)
Definition escape (c : ascii) : list ascii :=
  let n := Text.ord c in
  if n =? 92 then ["\"; "\"]%char
  else if n =? 34 then ["\"%char; c]
  else if n =? 8 then ["\"; "b"]%char
  else if n =? 12 then ["\"; "f"]%char
  else if n =? 10 then ["\"; "n"]%char
  else if n =? 13 then ["\"; "r"]%char
  else if n =? 9 then ["\"; "t"]%char
  else if (32 <=? n) && (n <=? 126) then [c]
  else ["\"; "u"]%char ++ SHA1.hex 4 n.

Definition str (s : string) : string :=
  Text.text (Py.dquote :: flat_map escape (Text.chars s) ++ [Py.dquote]).

(** [n] in decimal, on at least [k] digits *)
Definition padded (k : nat) (n : Z) : string :=
  let d := Text.str_int n in
  Text.text (repeat "0"%char (k - String.length d)) +:+ d.

(** [t.isoformat()] *)
Definition isoformat (t : DT.datetime) : string :=
  padded 4 (DT.year t) +:+ "-" +:+ padded 2 (DT.month t) +:+ "-"
  +:+ padded 2 (DT.day t) +:+ "T" +:+ padded 2 (DT.hour t) +:+ ":"
  +:+ padded 2 (DT.minute t) +:+ ":00".

(** [_json_serialize(obj)]: the text of a date; [None] for anything else. *)
Definition _json_serialize (obj : pyobj) : pyobj :=
  match obj with
  | ODatetime t => OStr (isoformat t)
  | _ => ONone
  end.

(** [json.dumps(obj, default=_json_serialize)] *)
Fixpoint dumps (obj : pyobj) : string :=
  match obj with
  | ONone => "null"
  | OInt n => Text.str_int n
  | OStr s => str s
  | OList l =>
      "[" +:+ Py.join ", "
                ((fix items (l : list pyobj) : list string :=
                    match l with
                    | [] => []
                    | x :: l' => dumps x :: items l'
                    end) l) +:+ "]"
  | ODict d =>
      "{" +:+ Py.join ", "
                ((fix items (d : list (string * pyobj)) : list string :=
                    match d with
                    | [] => []
                    | (k, v) :: d' => (str k +:+ ": " +:+ dumps v) :: items d'
                    end) d) +:+ "}"
  | ODatetime t =>
      match _json_serialize (ODatetime t) with
      | OStr s => str s
      | _ => "null"
      end
  end.

End Json.

(** [asdict(station)] *)
Definition asdict_station (s : Station) : Json.pyobj :=
  Json.ODict [("id", Json.OInt (id s)); ("name", Json.OStr (name s));
              ("rss", Json.OStr (rss s)); ("latitude", Json.OStr (latitude s));
              ("longitude", Json.OStr (longitude s))].

Definition asdict_field (field : option (list string)) : Json.pyobj :=
  match field with
  | Some toks => Json.OList (map Json.OStr toks)
  | None => Json.ONone
  end.

(** [asdict(report)] *)
Definition asdict_report (r : StationReport) : Json.pyobj :=
  Json.ODict [("timestamp", Json.ODatetime (timestamp r));
              ("wave_height", asdict_field (wave_height r));
              ("wave_dominant_period", asdict_field (wave_dominant_period r));
              ("wave_average_period", asdict_field (wave_average_period r));
              ("wave_mean_degrees", asdict_field (wave_mean_degrees r));
              ("water_temperature", asdict_field (water_temperature r))].

(** [report.station_id]: the [StationReport] of the client has no such
    attribute. *)
Definition report_station_id (r : StationReport) : M Z := raise AttributeError.

(** [objects[key] = data] *)
Fixpoint dict_set (key : string) (data : Json.pyobj) (objects : list (string * Json.pyobj))
  : list (string * Json.pyobj) :=
  match objects with
  | [] => [(key, data)]
  | (k, v) :: objects' =>
      if String.eqb k key then (k, data) :: objects'
      else (k, v) :: dict_set key data objects'
  end.

Section Update.

Variable lxml : string -> Soup.node.
Variable http : list request -> request -> outcome.

(** [client.put_object(Bucket=BUCKET, Key=key, Body=body)] of the object
    store *)
Variable put_object : string -> string -> M unit.

Definition upload_data (objects : list (string * Json.pyobj)) : M unit :=
  gather (map (fun kv => put_object (fst kv) (Json.dumps (snd kv))) objects) ;;;
  ret tt.


(** One step of the comprehension of [update_reports] *)
Definition report_object (report : StationReport) (objects : list (string * Json.pyobj))
  : M (list (string * Json.pyobj)) :=
  station_id <- report_station_id report ;;
  ret (dict_set ("report/" +:+ Text.str_int station_id +:+ ".json")
         (asdict_report report) objects).

Definition update_reports : M unit :=
  stations <- station_list lxml http ;;
  result <- gather (map (station_report lxml http) stations) ;;
  let reports := omap (fun x => x) result in
  objects <- for_each reports report_object [] ;;
  upload_data objects.

End Update.

(** ** The library models on known values *)

Example sha1_empty :
  SHA1.hexdigest (SHA1.encode "") = "da39a3ee5e6b4b0d3255bfef95601890afd80709".
Proof. vm_compute. reflexivity. Qed.

Example sha1_abc :
  SHA1.hexdigest (SHA1.encode "abc") = "a9993e364706816aba3e25717850c26c9cd0d89d".
Proof. vm_compute. reflexivity. Qed.

Example sha1_two_blocks :
  SHA1.hexdigest (SHA1.encode "abcdbcdecdefdefgefghfghighijhijkijkljklmklmnlmnomnopnopq")
  = "84983e441c3bd26ebaae4aa1f95129e5e54670f1".
Proof. vm_compute. reflexivity. Qed.

Example repr_station : Py.repr_dict [("station", Py.Int 46086)] = "{'station': 46086}".
Proof. reflexivity. Qed.

Example repr_quotes :
  Py.repr_dict [("k", Py.Str "it's"); ("n", Py.Int (-7))]
  = "{'k': " +:+ String Py.dquote ("it's" +:+ String Py.dquote ", 'n': -7}").
Proof. reflexivity. Qed.

Example strptime_ok :
  DT.strptime "2050 GMT on 11/04/2019" = Some (DT.mk 2019 11 4 20 50).
Proof. vm_compute. reflexivity. Qed.

Example strptime_boat : DT.strptime "1234 GMT whenever on a boat" = None.
Proof. vm_compute. reflexivity. Qed.

Example strptime_feb30 : DT.strptime "0000 GMT on 02/30/2020" = None.
Proof. vm_compute. reflexivity. Qed.

Example timestamp_2019 :
  DT.timestamp_str (DT.mk 2019 11 4 20 50) = "1572900600.0".
Proof. vm_compute. reflexivity. Qed.

Example sha1_station_key :
  cache_key page_url (station_params 46086)
  = "2a8e6c0615492837eada42b133d4a8350b650355".
Proof. vm_compute. reflexivity. Qed.

Example repr_escapes :
  Text.chars (Py.repr_str (Text.text (map Text.chr
     [97; 34; 98; 39; 99; 92; 32; 10; 9; 127; 160; 173; 233])))
  = map Text.chr [39; 97; 34; 98; 92; 39; 99; 92; 92; 32; 92; 110; 92; 116;
                  92; 120; 55; 102; 92; 120; 97; 48; 92; 120; 97; 100; 233; 39].
Proof. vm_compute. reflexivity. Qed.

Example split_blanks : Text.split "  4.2  ft " = ["4.2"; "ft"].
Proof. vm_compute. reflexivity. Qed.

Example search_caption :
  Re.search caption_re "Conditions at 46086 as of 2050 GMT on 11/04/2019:"
  = Some [(1%nat, "2050 GMT on 11/04/2019")].
Proof. vm_compute. reflexivity. Qed.

Example search_caption_none : Re.search caption_re "whenever on a boat" = None.
Proof. vm_compute. reflexivity. Qed.

Example search_lat_long :
  Re.search lat_long_re "Owned by NDBC 32.491 N 118.035 W (32 29 N)"
  = Some [(2%nat, "118.035 W"); (1%nat, "32.491 N")].
Proof. vm_compute. reflexivity. Qed.

Example station_descriptor :
  fst (station Site.lxml (Site.http (Response 503 "")) 46086 Site.fresh)
  = Ok (Some (mkStation 46086 "RSS Station 46086"
                "https://www.ndbc.noaa.gov/data/latest_obs/46086.rss"
                "32.491 N" "118.035 W")).
Proof. vm_compute. reflexivity. Qed.

Example station_no_coordinates :
  fst (station Site.lxml (Site.http (Response 200 Site.nocoord_html)) 41001 Site.fresh)
  = Ok None.
Proof. vm_compute. reflexivity. Qed.

Example station_list_empty_body :
  fst (station_list Site.lxml (fun _ _ => Response 200 "") Site.fresh) = Ok [].
Proof. vm_compute. reflexivity. Qed.

(** ** Text lemmas *)

Lemma text_chars s : Text.text (Text.chars s) = s.
Proof. apply string_of_list_ascii_of_string. Qed.

Lemma chars_text l : Text.chars (Text.text l) = l.
Proof. apply list_ascii_of_string_of_list_ascii. Qed.

Lemma chars_app s t : Text.chars (s +:+ t) = (Text.chars s ++ Text.chars t)%list.
Proof. induction s as [|c s IH]; simpl; [done|]. by rewrite IH. Qed.

Lemma text_app l k : Text.text (l ++ k) = Text.text l +:+ Text.text k.
Proof. induction l as [|c l IH]; simpl; [done|]. by rewrite IH. Qed.


Lemma drop_name_slash l k :
  no_slash l -> drop_name (l ++ "/"%char :: k) = k.
Proof.
  induction 1 as [|c l Hc Hl IH]; simpl; [done|]. by rewrite Hc.
Qed.

Lemma dirname_join d f :
  no_slash (Text.chars f) -> dirname (d +:+ "/" +:+ f) = d.
Proof.
  intros Hf. unfold dirname.
  rewrite !chars_app, !rev_app_distr. simpl.
  rewrite <- app_assoc. simpl.
  rewrite drop_name_slash.
  - by rewrite rev_involutive, text_chars.
  - unfold no_slash. apply Forall_rev. exact Hf.
Qed.

Lemma hex_digit_no_slash x : Text.eqc (SHA1.hex_digit (Z.land x 15)) "/" = false.
Proof.
  change 15 with (Z.ones 4). rewrite Z.land_ones by lia.
  pose proof (Z.mod_pos_bound x (2 ^ 4) ltac:(lia)) as Hb.
  set (r := x mod 2 ^ 4) in *.
  assert (Hr : r = 0 \/ r = 1 \/ r = 2 \/ r = 3 \/ r = 4 \/ r = 5 \/ r = 6 \/ r = 7
               \/ r = 8 \/ r = 9 \/ r = 10 \/ r = 11 \/ r = 12 \/ r = 13 \/ r = 14
               \/ r = 15) by lia.
  repeat (destruct Hr as [-> | Hr]; [reflexivity |]). by subst r; rewrite Hr.
Qed.

Lemma hex_no_slash k n : no_slash (SHA1.hex k n).
Proof.
  induction k as [|k IH]; simpl; constructor; [apply hex_digit_no_slash | exact IH].
Qed.

Lemma hexdigest_no_slash msg : no_slash (Text.chars (SHA1.hexdigest msg)).
Proof.
  unfold SHA1.hexdigest. rewrite chars_text.
  unfold no_slash. rewrite !Forall_app. repeat split; apply hex_no_slash.
Qed.

Lemma hexdigest_head msg :
  exists c s, SHA1.hexdigest msg = String c s /\ Text.eqc c "/" = false.
Proof.
  unfold SHA1.hexdigest. simpl. eexists _, _. split; [reflexivity|].
  apply hex_digit_no_slash.
Qed.

Lemma eqc_sym a b : Text.eqc a b = Text.eqc b a.
Proof. apply Ascii.eqb_sym. Qed.

Lemma startswith_slash c s : Text.startswith (String c s) "/" = Text.eqc c "/".
Proof. cbn [Text.startswith]. rewrite andb_true_r. apply eqc_sym. Qed.

Lemma cache_file_eq url params :
  cache_file url params = "./cache/" +:+ cache_key url params +:+ ".html".
Proof.
  unfold cache_file, cache_key.
  destruct (hexdigest_head (SHA1.encode (key_text url params))) as (c & s & -> & Hc).
  unfold Text.posixpath_join. cbn [fold_left].
  change (Text.join2 "." "cache") with "./cache".
  unfold Text.join2. change (String c s +:+ ".html") with (String c (s +:+ ".html")).
  rewrite startswith_slash, Hc. reflexivity.
Qed.

Lemma cache_dir url params : dirname (cache_file url params) = "./cache".
Proof.
  rewrite cache_file_eq.
  change ("./cache/" +:+ cache_key url params +:+ ".html")
    with ("./cache" +:+ "/" +:+ (cache_key url params +:+ ".html")).
  apply dirname_join.
  rewrite chars_app. unfold no_slash. rewrite Forall_app. split.
  - apply hexdigest_no_slash.
  - repeat constructor.
Qed.

(** ** The fetch client *)

#[global] Arguments cache_file : simpl never.
#[global] Arguments cache_key : simpl never.
#[global] Arguments dirname : simpl never.
#[global] Arguments station_file : simpl never.
#[global] Arguments report_file : simpl never.
#[global] Arguments report_dir : simpl never.
#[global] Arguments Text.str_int : simpl never.
#[global] Arguments DT.strptime : simpl never.
#[global] Arguments DT.timestamp_str : simpl never.
#[global] Arguments Re.search : simpl never.
#[global] Arguments Soup.find : simpl never.
#[global] Arguments Soup.find_all : simpl never.
#[global] Arguments Soup.get_text : simpl never.
#[global] Arguments page_url : simpl never.
#[global] Arguments index_url : simpl never.
#[global] Arguments _url : simpl never.

(** ** The monad *)

Section Monad.

Context {A B : Type}.

Lemma bind_ok (m : M A) (k : A -> M B) w a w' :
  m w = (Ok a, w') -> bind m k w = k a w'.
Proof. intros H. unfold bind. by rewrite H. Qed.

Lemma bind_raise (m : M A) (k : A -> M B) w e w' :
  m w = (Raise e, w') -> bind m k w = (Raise e, w').
Proof. intros H. unfold bind. by rewrite H. Qed.

Lemma try_ok (m : M A) e h w a w' :
  m w = (Ok a, w') -> try_except m e h w = (Ok a, w').
Proof. intros H. unfold try_except. by rewrite H. Qed.

Lemma try_caught (m : M A) e h w w' :
  m w = (Raise e, w') -> try_except m e h w = h w'.
Proof. intros H. unfold try_except. rewrite H. by rewrite decide_True. Qed.

Lemma try_other (m : M A) e e' h w w' :
  m w = (Raise e', w') -> e' <> e -> try_except m e h w = (Raise e', w').
Proof. intros H Hne. unfold try_except. rewrite H. by rewrite decide_False. Qed.

Lemma bind_inv (m : M A) (k : A -> M B) w r w2 :
  bind m k w = (r, w2) ->
  (exists a w1, m w = (Ok a, w1) /\ k a w1 = (r, w2))
  \/ (exists e, m w = (Raise e, w2) /\ r = Raise e).
Proof.
  unfold bind. destruct (m w) as [[a|e] w1].
  - intros H. left. eauto.
  - intros [= <- <-]. right. eauto.
Qed.

End Monad.

Lemma pair_inv {X Y} (a a' : X) (b b' : Y) :
  (a, b) = (a', b') -> a = a' /\ b = b'.
Proof. intros H. split; [exact (f_equal fst H) | exact (f_equal snd H)]. Qed.

Lemma ok_inv {X} (a a' : X) : Ok a = Ok a' -> a = a'.
Proof. intros H. exact (f_equal (fun r => match r with Ok x => x | Raise _ => a end) H). Qed.

Ltac step tac := erewrite bind_ok by tac; cbv beta iota.
Ltac stop tac := erewrite bind_raise by tac; cbv beta iota.

(** ** Files *)

Lemma read_text_hit path w s :
  files w !! path = Some (Text s) -> read_text path w = (Ok s, w).
Proof. intros H. unfold read_text. by rewrite H. Qed.

Lemma read_text_miss path w :
  files w !! path = None -> read_text path w = (Raise FileNotFoundError, w).
Proof. intros H. unfold read_text. by rewrite H. Qed.

Lemma read_bytes_miss path w :
  files w !! path = None -> read_bytes path w = (Raise FileNotFoundError, w).
Proof. intros H. unfold read_bytes. by rewrite H. Qed.

Lemma write_file_ok path c w :
  dirname path ∈ dirs w ->
  write_file path c w = (Ok tt, mkWorld (<[path := c]> (files w)) (dirs w) (sent w)).
Proof. intros H. unfold write_file. by rewrite decide_True. Qed.

Lemma write_file_fail path c w :
  dirname path ∉ dirs w -> write_file path c w = (Raise FileNotFoundError, w).
Proof. intros H. unfold write_file. by rewrite decide_False. Qed.

(** ** The fetch client *)

Section Get.

Variable http : list request -> request -> outcome.
Variables (url : string) (params : Py.dict).

Lemma session_get_response w status text :
  http (sent w) (url, params) = Response status text ->
  session_get http url params w = (Ok (status, text), with_request w url params).
Proof. intros H. unfold session_get. by rewrite H. Qed.

Lemma session_get_failure w e :
  http (sent w) (url, params) = Failure e ->
  session_get http url params w = (Raise e, with_request w url params).
Proof. intros H. unfold session_get. by rewrite H. Qed.

Lemma get_lookup_hit w body :
  try_except (body <- read_text (cache_file url params) ;; ret (Some body))
    FileNotFoundError (ret None) w = (Ok (Some body), w) <->
  files w !! cache_file url params = Some (Text body).
Proof.
  unfold try_except, bind, read_text, ret.
  destruct (files w !! cache_file url params) as [[s| |]|]; cbn.
  - split; intros [= ->]; reflexivity.
  - split; discriminate.
  - split; discriminate.
  - split; discriminate.
Qed.

Lemma get_lookup_miss w :
  files w !! cache_file url params = None ->
  try_except (body <- read_text (cache_file url params) ;; ret (Some body))
    FileNotFoundError (ret None) w = (Ok None, w).
Proof.
  intros Hf. by erewrite try_caught by apply bind_raise, read_text_miss, Hf.
Qed.

Lemma get_hit w body :
  files w !! cache_file url params = Some (Text body) ->
  _get http url params w = (Ok (Some body), w).
Proof.
  intros Hf. unfold _get.
  by erewrite bind_ok by (by apply get_lookup_hit).
Qed.

Lemma get_miss_status w status text :
  files w !! cache_file url params = None ->
  http (sent w) (url, params) = Response status text ->
  status <> 200 ->
  _get http url params w = (Ok None, with_request w url params).
Proof.
  intros Hf Hr Hs. unfold _get.
  step ltac:(by apply get_lookup_miss).
  step ltac:(by apply session_get_response).
  cbn [fst snd]. by destruct (Z.eqb_spec status 200).
Qed.

Lemma get_miss_failure w e :
  files w !! cache_file url params = None ->
  http (sent w) (url, params) = Failure e ->
  _get http url params w = (Raise e, with_request w url params).
Proof.
  intros Hf Hr. unfold _get.
  step ltac:(by apply get_lookup_miss).
  by stop ltac:(by apply session_get_failure).
Qed.

Lemma get_miss_200 w body :
  files w !! cache_file url params = None ->
  http (sent w) (url, params) = Response 200 body ->
  _get http url params w =
    if decide ("./cache" ∈ dirs w)
    then (Ok (Some body),
          mkWorld (<[cache_file url params := Text body]> (files w)) (dirs w)
            (sent w ++ [(url, params)]))
    else (Raise FileNotFoundError, with_request w url params).
Proof.
  intros Hf Hr. unfold _get.
  step ltac:(by apply get_lookup_miss).
  step ltac:(by apply session_get_response).
  cbn [fst snd Z.eqb Pos.eqb].
  destruct (decide ("./cache" ∈ dirs w)) as [Hd|Hd].
  - by step ltac:(apply write_file_ok; by rewrite cache_dir).
  - by stop ltac:(apply write_file_fail; by rewrite cache_dir).
Qed.

Lemma get_unreadable w c :
  files w !! cache_file url params = Some c ->
  (forall s, c <> Text s) ->
  _get http url params w = (Raise UnicodeDecodeError, w).
Proof.
  intros Hf Hc. unfold _get.
  assert (Hr : read_text (cache_file url params) w = (Raise UnicodeDecodeError, w)).
  { unfold read_text. rewrite Hf. destruct c as [s| |]; [|reflexivity|reflexivity].
    exfalso. exact (Hc s eq_refl). }
  rewrite (bind_raise _ _ w UnicodeDecodeError w); [reflexivity|].
  apply try_other; [|discriminate].
  apply bind_raise. exact Hr.
Qed.


End Get.


(** C10.  When the fetch of the index page yields no body, [station_list]
    hands [None] to the parser and raises [TypeError]; it does not return
    an empty catalog. *)
Theorem station_list_without_body lxml http w w1 :
  _get http index_url [] w = (Ok None, w1) ->
  station_list lxml http w = (Raise TypeError, w1).
Proof.
  intros H. unfold station_list. fold index_url.
  step ltac:(exact H). reflexivity.
Qed.

(** ** The catalog *)

Lemma fold_list_anchor l acc :
  fold_left list_anchor l acc = (acc ++ omap anchor_station l)%list.
Proof.
  revert acc. induction l as [|a l IH]; intros acc.
  - cbn. by rewrite app_nil_r.
  - change (fold_left list_anchor (a :: l) acc)
      with (fold_left list_anchor l (list_anchor acc a)).
    change (omap anchor_station (a :: l))
      with (match anchor_station a with
            | Some y => y :: omap anchor_station l
            | None => omap anchor_station l
            end).
    rewrite IH. unfold list_anchor, anchor_station.
    destruct (Re.search station_href_re (default "" (Soup.get a "href"))) as [m|];
      [|reflexivity].
    change (Some m ≫= (fun m0 => Text.int_of_str (Re.group 1 m0)))
      with (Text.int_of_str (Re.group 1 m)).
    destruct (Text.int_of_str (Re.group 1 m)); [|reflexivity].
    by rewrite <- app_assoc.
Qed.

Lemma truthy_some page : page <> "" -> truthy (Some page) = Some page.
Proof.
  intros H. unfold truthy. destruct (String.eqb_spec page ""); [done|reflexivity].
Qed.

Section Extract.

Variable lxml : string -> Soup.node.
Variable http : list request -> request -> outcome.

(** C6, as amended.  [station_list] returns a list with one entry for
    every anchor whose target names a station, in the order of the page;
    an anchor that occurs twice yields its station twice. *)
Theorem station_list_one_per_anchor w page w1 :
  _get http index_url [] w = (Ok (Some page), w1) ->
  station_list lxml http w =
    (Ok (omap anchor_station
           (map snd (Soup.find_all (lxml page) "a" (Soup.has_attr "href")))), w1).
Proof.
  intros H. unfold station_list. fold index_url.
  step ltac:(exact H).
  step ltac:(reflexivity).
  by rewrite fold_list_anchor.
Qed.

(** C3 (strict timestamp).  When the caption carries the marker and the
    pattern finds a time in it that [strptime] rejects, [station_report]
    raises [ValueError]: the caller gets a failure, which is not the
    absent result [None]. *)
Theorem station_report_malformed_timestamp station_id w page w1 table caption m :
  _get http page_url (station_params station_id) w = (Ok (Some page), w1) ->
  page <> "" ->
  Soup.find (lxml page) "caption" (Soup.class_is "titleDataHeader")
    = Some (table, caption) ->
  Re.search caption_re (Soup.get_text caption) = Some m ->
  DT.strptime (Re.group 1 m) = None ->
  station_report lxml http station_id w = (Raise ValueError, w1)
  /\ station_report lxml http station_id w <> (Ok None, w1).
Proof.
  intros Hget Hpage Hcap Hm Ht.
  assert (H : station_report lxml http station_id w = (Raise ValueError, w1)).
  { unfold station_report. fold page_url.
    step ltac:(exact Hget). rewrite (truthy_some _ Hpage).
    step ltac:(reflexivity). rewrite Hcap, Hm, Ht. reflexivity. }
  split; [exact H|]. rewrite H. discriminate.
Qed.

End Extract.

(** ** Writing the report *)

Lemma digit_char_no_slash n : Text.eqc (Text.chr (48 + n mod 10)) "/" = false.
Proof.
  pose proof (Z.mod_pos_bound n 10 ltac:(lia)) as Hb.
  set (r := n mod 10) in *.
  assert (Hr : r = 0 \/ r = 1 \/ r = 2 \/ r = 3 \/ r = 4 \/ r = 5 \/ r = 6 \/ r = 7
               \/ r = 8 \/ r = 9) by lia.
  repeat (destruct Hr as [-> | Hr]; [reflexivity |]). by rewrite Hr.
Qed.

Lemma digits_pos_no_slash fuel n acc :
  no_slash acc -> no_slash (Text.digits_pos fuel n acc).
Proof.
  revert n acc. induction fuel as [|fuel IH]; intros n acc Hacc; cbn [Text.digits_pos].
  - exact Hacc.
  - assert (no_slash (Text.chr (48 + n mod 10) :: acc))
      by (constructor; [apply digit_char_no_slash | exact Hacc]).
    destruct (n <? 10); [done | by apply IH].
Qed.

Lemma str_int_no_slash n : no_slash (Text.chars (Text.str_int n)).
Proof.
  unfold Text.str_int. destruct (n <? 0).
  - cbn [Text.chars list_ascii_of_string]. constructor; [reflexivity|].
    fold (Text.chars (Text.text (Text.digits_pos (S (Z.to_nat (Z.log2 (- n)))) (- n) []))).
    rewrite chars_text. apply digits_pos_no_slash. constructor.
  - rewrite chars_text. apply digits_pos_no_slash. constructor.
Qed.

Lemma report_file_dir station_id t :
  dirname (report_file station_id t) = report_dir station_id.
Proof.
  unfold report_file. apply dirname_join.
  unfold DT.timestamp_str. rewrite !chars_app.
  unfold no_slash. rewrite !Forall_app. split; [split|].
  - apply str_int_no_slash.
  - repeat constructor.
  - repeat constructor.
Qed.



(** ** Scanning the rows *)





Section Report.

Variable lxml : string -> Soup.node.
Variable http : list request -> request -> outcome.




End Report.

(** ** The station descriptor *)

Section StationPage.

Variable lxml : string -> Soup.node.
Variable http : list request -> request -> outcome.

Lemma station_anchor_other station_id soup pa acc w :
  is_feed_anchor station_id (snd pa) = false ->
  station_anchor station_id soup pa acc w = (Ok acc, w).
Proof.
  destruct pa as [parent a]. unfold is_feed_anchor, station_anchor. cbn [snd].
  intros ->. reflexivity.
Qed.

Lemma station_anchor_no_metadata station_id soup pa acc w :
  is_feed_anchor station_id (snd pa) = true ->
  Soup.find soup "div" (Soup.attr_is "id" "stn_metadata") = None ->
  station_anchor station_id soup pa acc w = (Raise AttributeError, w).
Proof.
  destruct pa as [parent a]. unfold is_feed_anchor, station_anchor. cbn [snd].
  intros -> ->. reflexivity.
Qed.

Lemma station_anchor_no_coordinates station_id soup pa acc w p div :
  Soup.find soup "div" (Soup.attr_is "id" "stn_metadata") = Some (p, div) ->
  Re.search lat_long_re (Soup.get_text div) = None ->
  station_anchor station_id soup pa acc w = (Ok acc, w).
Proof.
  destruct pa as [parent a]. unfold station_anchor. intros -> ->.
  by destruct (String.eqb _ _).
Qed.

Lemma anchors_no_metadata station_id soup anchors acc w :
  Exists (fun pa => is_feed_anchor station_id (snd pa) = true) anchors ->
  Soup.find soup "div" (Soup.attr_is "id" "stn_metadata") = None ->
  for_each anchors (station_anchor station_id soup) acc w = (Raise AttributeError, w).
Proof.
  intros Hex Hdiv. induction anchors as [|pa anchors IH]; [by inversion Hex|].
  cbn [for_each].
  destruct (is_feed_anchor station_id (snd pa)) eqn:Hpa.
  - by stop ltac:(by apply station_anchor_no_metadata).
  - step ltac:(by apply station_anchor_other).
    apply IH. inversion Hex as [? ? H|]; [congruence|done].
Qed.

Lemma anchors_skipped station_id soup anchors acc w :
  Forall (fun pa => station_anchor station_id soup pa acc w = (Ok acc, w)) anchors ->
  for_each anchors (station_anchor station_id soup) acc w = (Ok acc, w).
Proof.
  induction 1 as [|pa anchors Hpa _ IH]; cbn [for_each]; [done|].
  by step ltac:(exact Hpa).
Qed.

Lemma station_fetches station_id w page w1 :
  files w !! station_file station_id = None ->
  _get http page_url (station_params station_id) w = (Ok (Some page), w1) ->
  page <> "" ->
  station lxml http station_id w =
    for_each (Soup.find_all (lxml page) "a" (Soup.has_attr "href"))
      (station_anchor station_id (lxml page)) None w1.
Proof.
  intros Hf Hget Hpage. unfold station. fold page_url.
  step ltac:(apply try_caught, bind_raise, read_bytes_miss, Hf).
  step ltac:(exact Hget). rewrite (truthy_some _ Hpage).
  by step ltac:(reflexivity).
Qed.

(** C4, where the code departs from it.  On a page that has the feed
    anchor of the station and no metadata block, [station] raises
    [AttributeError] instead of returning the absent result. *)
Theorem station_without_metadata station_id w page w1 :
  files w !! station_file station_id = None ->
  _get http page_url (station_params station_id) w = (Ok (Some page), w1) ->
  page <> "" ->
  Exists (fun pa => is_feed_anchor station_id (snd pa) = true)
    (Soup.find_all (lxml page) "a" (Soup.has_attr "href")) ->
  Soup.find (lxml page) "div" (Soup.attr_is "id" "stn_metadata") = None ->
  station lxml http station_id w = (Raise AttributeError, w1).
Proof.
  intros Hf Hget Hpage Hex Hdiv.
  rewrite (station_fetches _ _ _ _ Hf Hget Hpage).
  by apply anchors_no_metadata.
Qed.

(** X19.  On a fetched page without the feed anchor of the station,
    [station] returns the absent result and writes nothing. *)
Lemma station_without_anchor station_id w page w1 :
  files w !! station_file station_id = None ->
  _get http page_url (station_params station_id) w = (Ok (Some page), w1) ->
  page <> "" ->
  Forall (fun pa => is_feed_anchor station_id (snd pa) = false)
    (Soup.find_all (lxml page) "a" (Soup.has_attr "href")) ->
  station lxml http station_id w = (Ok None, w1).
Proof.
  intros Hf Hget Hpage Hall.
  rewrite (station_fetches _ _ _ _ Hf Hget Hpage).
  apply anchors_skipped. eapply Forall_impl; [exact Hall|].
  intros pa Hpa. by apply station_anchor_other.
Qed.

(** X20.  On a fetched page whose metadata block holds no coordinates of
    the pattern, [station] returns the absent result and writes nothing,
    with or without the feed anchor. *)
Lemma station_without_coordinates station_id w page w1 p div :
  files w !! station_file station_id = None ->
  _get http page_url (station_params station_id) w = (Ok (Some page), w1) ->
  page <> "" ->
  Soup.find (lxml page) "div" (Soup.attr_is "id" "stn_metadata") = Some (p, div) ->
  Re.search lat_long_re (Soup.get_text div) = None ->
  station lxml http station_id w = (Ok None, w1).
Proof.
  intros Hf Hget Hpage Hdiv Hre.
  rewrite (station_fetches _ _ _ _ Hf Hget Hpage).
  apply anchors_skipped. apply Forall_forall. intros pa _.
  by eapply station_anchor_no_coordinates.
Qed.

End StationPage.

(** ** The batch *)



Lemma gather_length {A} (l : list (M A)) w rs w' :
  gather l w = (Ok rs, w') -> length rs = length l.
Proof.
  revert w rs w'. induction l as [|t l IH]; intros w rs w' H.
  - cbn [gather] in H. unfold ret in H. apply pair_inv in H as [H _].
    by apply ok_inv in H as <-.
  - cbn [gather] in H. apply bind_inv in H as [(r & wa & Ht & H)|(e & _ & He)];
      [|discriminate].
    apply bind_inv in H as [(rs' & wb & Hg & H)|(e & _ & He)]; [|discriminate].
    unfold ret in H. apply pair_inv in H as [H _]. apply ok_inv in H as <-.
    cbn [length]. f_equal. exact (IH _ _ _ Hg).
Qed.

Lemma gather_raise {A} (l1 l2 : list (M A)) t w rs1 w1 e w2 :
  gather l1 w = (Ok rs1, w1) -> t w1 = (Raise e, w2) ->
  gather (l1 ++ t :: l2)%list w = (Raise e, w2).
Proof.
  revert w rs1. induction l1 as [|t1 l1 IH]; intros w rs1 H1 Ht.
  - cbn [gather] in H1. unfold ret in H1. apply pair_inv in H1 as [_ ->].
    cbn [app gather]. by stop ltac:(exact Ht).
  - cbn [gather] in H1. apply bind_inv in H1 as [(r & wa & Ht1 & H1)|(e' & _ & He)];
      [|discriminate].
    apply bind_inv in H1 as [(rs & wb & Hg & H1)|(e' & _ & He)]; [|discriminate].
    unfold ret in H1. apply pair_inv in H1 as [_ ->].
    change ((t1 :: l1) ++ t :: l2)%list with (t1 :: (l1 ++ t :: l2))%list.
    cbn [gather]. step ltac:(exact Ht1).
    by stop ltac:(eapply IH; [exact Hg | exact Ht]).
Qed.





Section Run.

Variable lxml : string -> Soup.node.
Variable http : list request -> request -> outcome.


Lemma station_report_transport_failure station_id w e :
  files w !! cache_file page_url (station_params station_id) = None ->
  http (sent w) (page_url, station_params station_id) = Failure e ->
  station_report lxml http station_id w
  = (Raise e, with_request w page_url (station_params station_id)).
Proof.
  intros Hf Hr. unfold station_report. fold page_url.
  by stop ltac:(by eapply get_miss_failure).
Qed.


(** A failure of the transport at one station ends the batch. *)
Lemma run_transport_failure w w0 pre K post rs_pre w1 e :
  station_list lxml http w = (Ok (pre ++ K :: post)%list, w0) ->
  gather (map (station_report lxml http) pre) w0 = (Ok rs_pre, w1) ->
  files w1 !! cache_file page_url (station_params K) = None ->
  http (sent w1) (page_url, station_params K) = Failure e ->
  run lxml http w = (Raise e, with_request w1 page_url (station_params K)).
Proof.
  intros Hlist Hpre Hf Hr.
  unfold run. step ltac:(exact Hlist).
  rewrite map_app. cbn [map].
  by stop ltac:(eapply gather_raise;
                [exact Hpre | by eapply station_report_transport_failure]).
Qed.

End Run.

(** ** The text that is hashed *)

Lemma chars_inj s t : Text.chars s = Text.chars t -> s = t.
Proof. intros H. by rewrite <- (text_chars s), H, text_chars. Qed.

Lemma append_inv_tail a b s : a +:+ s = b +:+ s -> a = b.
Proof.
  intros H. apply chars_inj. apply (f_equal Text.chars) in H.
  rewrite !chars_app in H. by apply app_inv_tail in H.
Qed.

Lemma append_inv_head s a b : s +:+ a = s +:+ b -> a = b.
Proof.
  intros H. apply chars_inj. apply (f_equal Text.chars) in H.
  rewrite !chars_app in H. by apply app_inv_head in H.
Qed.

Lemma eqc_true a b : Text.eqc a b = true -> a = b.
Proof. apply Ascii.eqb_eq. Qed.

Lemma in_all_chars c : In c Py.all_chars.
Proof.
  unfold Py.all_chars. rewrite <- (ascii_nat_embedding c).
  apply in_map, in_seq. pose proof (nat_ascii_bounded c). lia.
Qed.

Lemma prefixb_app l1 l2 r1 r2 :
  (l1 ++ r1 = l2 ++ r2)%list -> Py.prefixb l1 l2 = true \/ Py.prefixb l2 l1 = true.
Proof.
  revert l2. induction l1 as [|a l1 IH]; intros l2 H; [by left|].
  destruct l2 as [|b l2]; [by right|].
  cbn [app] in H. assert (a = b) as -> by congruence.
  assert (H' : (l1 ++ r1 = l2 ++ r2)%list) by congruence.
  cbn [Py.prefixb]. unfold Text.eqc. rewrite Ascii.eqb_refl. cbn [andb].
  by apply IH.
Qed.

Section Quote.

Variable q : ascii.
Hypothesis Hq : Py.prefix_code q = true.

Lemma repr_char_code c1 c2 r1 r2 :
  (Py.repr_char q c1 ++ r1 = Py.repr_char q c2 ++ r2)%list -> c1 = c2 /\ r1 = r2.
Proof.
  intros H. assert (c1 = c2) as ->.
  { unfold Py.prefix_code in Hq. rewrite forallb_forall in Hq.
    pose proof (Hq c1 (in_all_chars c1)) as H1. apply andb_prop in H1 as [_ H1].
    pose proof (Hq c2 (in_all_chars c2)) as H2. apply andb_prop in H2 as [_ H2].
    rewrite forallb_forall in H1, H2.
    specialize (H1 c2 (in_all_chars c2)). specialize (H2 c1 (in_all_chars c1)).
    apply orb_prop in H1 as [H1|H1]; [by apply eqc_true|].
    apply orb_prop in H2 as [H2|H2]; [symmetry; by apply eqc_true|].
    apply prefixb_app in H as [H|H]; rewrite H in *; discriminate. }
  split; [done|]. by apply app_inv_head in H.
Qed.

Lemma repr_char_not_quote c r1 r2 : (q :: r1 = Py.repr_char q c ++ r2)%list -> False.
Proof.
  intros H. unfold Py.prefix_code in Hq. rewrite forallb_forall in Hq.
  pose proof (Hq c (in_all_chars c)) as H1. apply andb_prop in H1 as [H1 _].
  apply andb_prop in H1 as [H0 H1].
  destruct (Py.repr_char q c) as [|a l]; [discriminate|].
  cbn [app] in H. assert (q = a) as <- by congruence.
  cbn [Py.prefixb] in H1. unfold Text.eqc in H1. rewrite Ascii.eqb_refl in H1.
  discriminate.
Qed.

Lemma escaped_code s1 s2 r1 r2 :
  (flat_map (Py.repr_char q) s1 ++ q :: r1
   = flat_map (Py.repr_char q) s2 ++ q :: r2)%list ->
  s1 = s2 /\ r1 = r2.
Proof.
  revert s2. induction s1 as [|c1 s1 IH]; intros [|c2 s2] H; cbn [flat_map app] in H.
  - split; [done|congruence].
  - rewrite <- app_assoc in H. by apply repr_char_not_quote in H.
  - rewrite <- app_assoc in H. symmetry in H. by apply repr_char_not_quote in H.
  - rewrite <- !app_assoc in H. apply repr_char_code in H as [-> H].
    apply IH in H as [-> ->]. done.
Qed.

End Quote.

Lemma prefix_code_quote s : Py.prefix_code (Py.quote_of s) = true.
Proof.
  unfold Py.quote_of.
  destruct (Py.has "'" s && negb (Py.has Py.dquote s)); vm_compute; reflexivity.
Qed.

(** A [repr] of a string ends where its quote Py.closes: what follows it does
    not change what it stands for. *)
Lemma repr_str_code s1 s2 r1 r2 :
  Py.repr_str s1 +:+ r1 = Py.repr_str s2 +:+ r2 -> s1 = s2 /\ r1 = r2.
Proof.
  intros H. apply (f_equal Text.chars) in H. rewrite !chars_app in H.
  unfold Py.repr_str in H. rewrite !chars_text in H. cbn [app] in H.
  assert (Hquote : Py.quote_of s1 = Py.quote_of s2) by congruence.
  rewrite <- Hquote in H.
  assert (H' : (flat_map (Py.repr_char (Py.quote_of s1)) (Text.chars s1)
                ++ Py.quote_of s1 :: Text.chars r1
                = flat_map (Py.repr_char (Py.quote_of s1)) (Text.chars s2)
                  ++ Py.quote_of s1 :: Text.chars r2)%list).
  { rewrite <- !app_assoc in H. cbn [app] in H. congruence. }
  apply (escaped_code _ (prefix_code_quote s1)) in H' as [Hs Hr].
  split; by apply chars_inj.
Qed.

Lemma repr_str_inj s1 s2 : Py.repr_str s1 = Py.repr_str s2 -> s1 = s2.
Proof.
  intros H. apply (repr_str_code s1 s2 "" ""). by rewrite H.
Qed.

(** *** Decimal numbers *)

Lemma ord_chr z : 0 <= z < 256 -> Text.ord (Text.chr z) = z.
Proof.
  intros Hz. unfold Text.ord, Text.chr.
  rewrite Z.mod_small by lia.
  rewrite N_ascii_embedding by lia. lia.
Qed.

Lemma int_digits_app a d e :
  Text.int_digits a (d ++ e)
  = match Text.int_digits a d with
    | Some x => Text.int_digits x e
    | None => None
    end.
Proof.
  revert a. induction d as [|c d IH]; intros a; cbn [app Text.int_digits]; [done|].
  destruct (Text.is_digit c); [apply IH | done].
Qed.

Lemma int_digits_all a l x :
  Text.int_digits a l = Some x -> Forall (fun c => Text.is_digit c = true) l.
Proof.
  revert a. induction l as [|c l IH]; intros a H; [constructor|].
  cbn [Text.int_digits] in H. destruct (Text.is_digit c) eqn:Hc; [|discriminate].
  constructor; [done | by eapply IH].
Qed.

Lemma digit_char n :
  Text.is_digit (Text.chr (48 + n mod 10)) = true
  /\ Text.ord (Text.chr (48 + n mod 10)) - 48 = n mod 10.
Proof.
  pose proof (Z.mod_pos_bound n 10 ltac:(lia)) as Hb.
  unfold Text.is_digit. rewrite ord_chr by lia. split; lia.
Qed.

Lemma digits_pos_S fuel n acc :
  Text.digits_pos (S fuel) n acc
  = if n <? 10 then Text.chr (48 + n mod 10) :: acc
    else Text.digits_pos fuel (n / 10) (Text.chr (48 + n mod 10) :: acc).
Proof. reflexivity. Qed.

Lemma digits_pos_value fuel n acc :
  0 <= n < 10 ^ Z.of_nat (S fuel) ->
  exists d, Text.digits_pos (S fuel) n acc = (d ++ acc)%list
            /\ Text.int_digits 0 d = Some n /\ d <> [].
Proof.
  revert n acc. induction fuel as [|fuel IH]; intros n acc Hn;
    rewrite digits_pos_S; destruct (digit_char n) as [Hd Hv];
    destruct (Z.ltb_spec n 10) as [Hlt|Hge].
  - exists [Text.chr (48 + n mod 10)]. split; [done|]. split; [|done].
    cbn [Text.int_digits]. rewrite Hd, Hv. f_equal. rewrite Z.mod_small; lia.
  - change (10 ^ Z.of_nat 1) with 10 in Hn. lia.
  - exists [Text.chr (48 + n mod 10)]. split; [done|]. split; [|done].
    cbn [Text.int_digits]. rewrite Hd, Hv. f_equal. rewrite Z.mod_small; lia.
  - rewrite Nat2Z.inj_succ, Z.pow_succ_r in Hn by lia.
    destruct (IH (n / 10) (Text.chr (48 + n mod 10) :: acc)) as (d & Hd1 & Hd2 & Hd3).
    { split; [apply Z.div_pos; lia | apply Z.div_lt_upper_bound; lia]. }
    exists (d ++ [Text.chr (48 + n mod 10)])%list. split; [|split].
    + rewrite Hd1, <- app_assoc. done.
    + rewrite int_digits_app, Hd2. cbn [Text.int_digits]. rewrite Hd, Hv.
      f_equal. pose proof (Z.div_mod n 10 ltac:(lia)). lia.
    + by destruct d.
Qed.

Lemma fuel_enough m : 0 <= m -> m < 10 ^ Z.of_nat (S (Z.to_nat (Z.log2 m))).
Proof.
  intros Hm. rewrite Nat2Z.inj_succ, Z2Nat.id by apply Z.log2_nonneg.
  destruct (Z.eq_dec m 0) as [->|Hne]; [cbn; lia|].
  pose proof (Z.log2_spec m ltac:(lia)) as [_ Hup].
  pose proof (Z.log2_nonneg m).
  assert (2 ^ Z.succ (Z.log2 m) <= 10 ^ Z.succ (Z.log2 m))
    by (apply Z.pow_le_mono_l; lia).
  lia.
Qed.

(** [str(n)] is a sign and digits that read back as [n]. *)
Lemma str_int_digits n :
  exists d, Text.int_digits 0 d = Some (Z.abs n) /\ d <> []
            /\ Text.chars (Text.str_int n)
               = ((if n <? 0 then ["-"%char] else []) ++ d)%list.
Proof.
  unfold Text.str_int. destruct (Z.ltb_spec n 0) as [Hneg|Hpos].
  - destruct (digits_pos_value (Z.to_nat (Z.log2 (- n))) (- n) []) as (d & H1 & H2 & H3).
    { split; [lia | apply fuel_enough; lia]. }
    exists d. rewrite H1, app_nil_r.
    replace (Z.abs n) with (- n) by lia. split; [done|]. split; [done|].
    cbn [Text.chars list_ascii_of_string]. f_equal. apply chars_text.
  - destruct (digits_pos_value (Z.to_nat (Z.log2 n)) n []) as (d & H1 & H2 & H3).
    { split; [lia | apply fuel_enough; lia]. }
    exists d. rewrite H1, app_nil_r.
    replace (Z.abs n) with n by lia. split; [done|]. split; [done|].
    apply chars_text.
Qed.

Lemma digit_run d1 d2 t1 t2 :
  Forall (fun c => Text.is_digit c = true) d1 ->
  Forall (fun c => Text.is_digit c = true) d2 ->
  Py.closes t1 -> Py.closes t2 ->
  (d1 ++ t1 = d2 ++ t2)%list -> d1 = d2 /\ t1 = t2.
Proof.
  intros H1. revert d2. induction H1 as [|c1 d1 Hc1 _ IH]; intros d2 H2 Ht1 Ht2 H.
  - destruct H2 as [|c2 d2 Hc2 _]; [done|]. cbn [app] in H.
    destruct Ht1 as [->|[t' ->]]; [discriminate|].
    assert (c2 = ","%char) as -> by congruence. discriminate.
  - destruct H2 as [|c2 d2 Hc2 H2]; cbn [app] in H.
    + destruct Ht2 as [->|[t' ->]]; [discriminate|].
      assert (c1 = ","%char) as -> by congruence. discriminate.
    + assert (c1 = c2) as -> by congruence.
      assert (H' : (d1 ++ t1 = d2 ++ t2)%list) by congruence.
      destruct (IH d2 H2 Ht1 Ht2 H') as [-> ->]. done.
Qed.

Lemma str_int_code a b t1 t2 :
  Py.closes t1 -> Py.closes t2 ->
  (Text.chars (Text.str_int a) ++ t1 = Text.chars (Text.str_int b) ++ t2)%list ->
  a = b /\ t1 = t2.
Proof.
  intros Ht1 Ht2.
  destruct (str_int_digits a) as (da & Ha & Hna & ->).
  destruct (str_int_digits b) as (db & Hb & Hnb & ->).
  pose proof (int_digits_all _ _ _ Ha) as Hda.
  pose proof (int_digits_all _ _ _ Hb) as Hdb.
  destruct (Z.ltb_spec a 0) as [Ha0|Ha0], (Z.ltb_spec b 0) as [Hb0|Hb0];
    cbn [app]; intros H.
  - assert (H' : (da ++ t1 = db ++ t2)%list) by congruence.
    destruct (digit_run _ _ _ _ Hda Hdb Ht1 Ht2 H') as [-> ->].
    split; [|done]. assert (Z.abs a = Z.abs b) by congruence. lia.
  - destruct Hdb as [|c db Hc _]; [done|]. cbn [app] in H.
    assert (c = "-"%char) as -> by congruence. discriminate.
  - destruct Hda as [|c da Hc _]; [done|]. cbn [app] in H.
    assert (c = "-"%char) as -> by congruence. discriminate.
  - destruct (digit_run _ _ _ _ Hda Hdb Ht1 Ht2 H) as [-> ->].
    split; [|done]. assert (Z.abs a = Z.abs b) by congruence. lia.
Qed.

(** *** The parameters *)

Lemma repr_str_chars_code s1 s2 r1 r2 :
  (Text.chars (Py.repr_str s1) ++ r1 = Text.chars (Py.repr_str s2) ++ r2)%list ->
  s1 = s2 /\ r1 = r2.
Proof.
  intros H.
  destruct (repr_str_code s1 s2 (Text.text r1) (Text.text r2)) as [Hs Hr].
  { apply chars_inj. by rewrite !chars_app, !chars_text. }
  split; [done|]. by rewrite <- (chars_text r1), Hr, chars_text.
Qed.

Lemma repr_str_head s : exists l, Text.chars (Py.repr_str s) = Py.quote_of s :: l.
Proof. unfold Py.repr_str. rewrite chars_text. eauto. Qed.

Lemma quote_of_cases s : Py.quote_of s = "'"%char \/ Py.quote_of s = Py.dquote.
Proof. unfold Py.quote_of. destruct (_ && _); auto. Qed.

Lemma int_not_str a s t1 t2 :
  (Text.chars (Text.str_int a) ++ t1 = Text.chars (Py.repr_str s) ++ t2)%list -> False.
Proof.
  destruct (str_int_digits a) as (d & Hd & Hn & ->).
  destruct (repr_str_head s) as [l ->].
  pose proof (int_digits_all _ _ _ Hd) as Hall.
  destruct Hall as [|c d Hc _]; [done|].
  destruct (a <? 0); cbn [app]; intros H.
  - destruct (quote_of_cases s) as [Hq|Hq]; rewrite Hq in H; discriminate.
  - assert (c = Py.quote_of s) as -> by congruence.
    destruct (quote_of_cases s) as [Hq|Hq]; rewrite Hq in Hc; discriminate.
Qed.

Lemma repr_code v1 v2 t1 t2 :
  Py.closes t1 -> Py.closes t2 ->
  (Text.chars (Py.repr v1) ++ t1 = Text.chars (Py.repr v2) ++ t2)%list ->
  v1 = v2 /\ t1 = t2.
Proof.
  intros Ht1 Ht2. destruct v1 as [a|s1], v2 as [b|s2]; cbn [Py.repr]; intros H.
  - destruct (str_int_code a b t1 t2 Ht1 Ht2 H) as [-> ->]. done.
  - by apply int_not_str in H.
  - symmetry in H. by apply int_not_str in H.
  - destruct (repr_str_chars_code s1 s2 t1 t2 H) as [-> ->]. done.
Qed.

Lemma join_cons sep x l :
  Text.chars (Py.join sep (x :: l))
  = (Text.chars x
     ++ match l with
        | [] => []
        | _ :: _ => Text.chars sep ++ Text.chars (Py.join sep l)
        end)%list.
Proof.
  destruct l as [|y l]; cbn [Py.join].
  - by rewrite app_nil_r.
  - by rewrite !chars_app.
Qed.

Lemma repr_item_chars kv :
  Text.chars (Py.repr_item kv)
  = (Text.chars (Py.repr_str (fst kv))
     ++ ":"%char :: " "%char :: Text.chars (Py.repr (snd kv)))%list.
Proof. unfold Py.repr_item. by rewrite !chars_app. Qed.

Lemma items_inj d1 d2 :
  Text.chars (Py.join ", " (map Py.repr_item d1))
  = Text.chars (Py.join ", " (map Py.repr_item d2)) ->
  d1 = d2.
Proof.
  revert d2. induction d1 as [|[k1 v1] d1 IH]; intros [|[k2 v2] d2] H.
  - done.
  - cbn [map] in H. rewrite join_cons, repr_item_chars in H.
    destruct (repr_str_head (fst (k2, v2))) as [l Hl]. rewrite Hl in H. discriminate.
  - cbn [map] in H. rewrite join_cons, repr_item_chars in H.
    destruct (repr_str_head (fst (k1, v1))) as [l Hl]. rewrite Hl in H. discriminate.
  - cbn [map] in H. rewrite !join_cons, !repr_item_chars in H. cbn [fst snd] in H.
    rewrite <- !app_assoc in H. apply repr_str_chars_code in H as [-> H].
    cbn [app] in H.
    assert (H' : (Text.chars (Py.repr v1)
                  ++ match map Py.repr_item d1 with
                     | [] => []
                     | _ :: _ => Text.chars ", "
                                 ++ Text.chars (Py.join ", " (map Py.repr_item d1))
                     end
                  = Text.chars (Py.repr v2)
                    ++ match map Py.repr_item d2 with
                       | [] => []
                       | _ :: _ => Text.chars ", "
                                   ++ Text.chars (Py.join ", " (map Py.repr_item d2))
                       end)%list) by congruence.
    apply repr_code in H' as [-> Htl].
    + f_equal. apply IH.
      destruct d1 as [|x1 d1], d2 as [|x2 d2]; cbn [map] in Htl |- *;
        [done | discriminate | discriminate |].
      cbn [Text.chars list_ascii_of_string app] in Htl. congruence.
    + destruct (map Py.repr_item d1); [by left | right; cbn; eauto].
    + destruct (map Py.repr_item d2); [by left | right; cbn; eauto].
Qed.

Lemma repr_dict_inj d1 d2 : Py.repr_dict d1 = Py.repr_dict d2 -> d1 = d2.
Proof.
  unfold Py.repr_dict. intros H.
  apply append_inv_head, append_inv_tail in H.
  apply items_inj. by rewrite H.
Qed.

(** C2, as amended.  The text that is hashed differs whenever the URL
    differs for the same parameters, and whenever the parameters differ,
    in a key, in a value or in their order, for the same URL. *)
Theorem key_text_separates url1 params1 url2 params2 :
  url1 = url2 \/ params1 = params2 ->
  (url1, params1) <> (url2, params2) ->
  key_text url1 params1 <> key_text url2 params2.
Proof.
  intros Hsame Hne Heq. apply Hne. unfold key_text in Heq.
  destruct Hsame as [->| ->].
  - do 2 apply append_inv_head in Heq. by apply repr_dict_inj in Heq as ->.
  - change (url1 +:+ "." +:+ Py.repr_dict params2)
      with (url1 +:+ ("." +:+ Py.repr_dict params2)) in Heq.
    by apply append_inv_tail in Heq as ->.
Qed.

Lemma key_text_separates_witness :
  key_text page_url [("a", Py.Int 1); ("b", Py.Int 2)]
  <> key_text page_url [("b", Py.Int 2); ("a", Py.Int 1)].
Proof.
  apply key_text_separates; [by left | discriminate].
Defined.

Lemma cache_key_depends_on_order :
  cache_key page_url [("a", Py.Int 1); ("b", Py.Int 2)]
  = "93f08a9bc6b39178d510d09aaf252e56ad7af99d"
  /\ cache_key page_url [("b", Py.Int 2); ("a", Py.Int 1)]
     = "aa09e3dfa1a4003e496ed3879b4f14c80c978b92"
  /\ cache_key page_url [("a", Py.Int 1); ("b", Py.Int 2)]
     <> cache_key page_url [("b", Py.Int 2); ("a", Py.Int 1)].
Proof.
  assert (H1 : cache_key page_url [("a", Py.Int 1); ("b", Py.Int 2)]
               = "93f08a9bc6b39178d510d09aaf252e56ad7af99d")
    by (vm_compute; reflexivity).
  assert (H2 : cache_key page_url [("b", Py.Int 2); ("a", Py.Int 1)]
               = "aa09e3dfa1a4003e496ed3879b4f14c80c978b92")
    by (vm_compute; reflexivity).
  split; [exact H1|]. split; [exact H2|]. rewrite H1, H2. discriminate.
Qed.

(** ** The statements on the small site *)

(** C5, as amended.  After a cache miss and an answer with status 200,
    [_get] stores the body and returns it when the cache directory exists;
    when it does not, the failure of the write is the outcome of [_get]. *)
Theorem get_put_outcome http url params w body :
  files w !! cache_file url params = None ->
  http (sent w) (url, params) = Response 200 body ->
  _get http url params w =
    if decide ("./cache" ∈ dirs w)
    then (Ok (Some body),
          mkWorld (<[cache_file url params := Text body]> (files w)) (dirs w)
            (sent w ++ [(url, params)]))
    else (Raise FileNotFoundError, with_request w url params).
Proof. apply get_miss_200. Qed.

Lemma get_put_outcome_witness :
  _get (Site.http (Response 503 "")) index_url [] Site.fresh
  = (Ok (Some Site.index_html),
     mkWorld (<[cache_file index_url [] := Text Site.index_html]> ∅)
       {["./cache"; "stations"]} [(index_url, [])]).
Proof.
  rewrite (get_put_outcome (Site.http (Response 503 "")) index_url [] Site.fresh
             Site.index_html);
    [vm_compute; reflexivity | vm_compute; reflexivity | vm_compute; reflexivity].
Defined.

Lemma get_put_failure_propagates :
  Site.http (Response 503 "") (sent Site.bare) (index_url, [])
    = Response 200 Site.index_html
  /\ write_file (cache_file index_url []) (Text Site.index_html) Site.bare
     = (Raise FileNotFoundError, Site.bare)
  /\ _get (Site.http (Response 503 "")) index_url [] Site.bare
     = (Raise FileNotFoundError, mkWorld ∅ ∅ [(index_url, [])]).
Proof. split; [|split]; vm_compute; reflexivity. Qed.


Lemma station_list_without_body_witness :
  station_list Site.lxml (fun _ _ => Response 404 "") Site.fresh
  = (Raise TypeError, mkWorld ∅ {["./cache"; "stations"]} [(index_url, [])]).
Proof.
  apply station_list_without_body. vm_compute. reflexivity.
Defined.

Lemma station_list_keeps_duplicates :
  fst (station_list Site.lxml (Site.http (Response 503 "")) Site.fresh)
  = Ok [46086; 46086; 41001]
  /\ count_occ Z.eq_dec [46086; 46086; 41001] 46086 = 2%nat.
Proof. split; vm_compute; reflexivity. Qed.

Lemma station_list_one_per_anchor_witness :
  station_list Site.lxml (Site.http (Response 503 "")) Site.fresh
  = (Ok [46086; 46086; 41001],
     snd (_get (Site.http (Response 503 "")) index_url [] Site.fresh)).
Proof.
  rewrite (station_list_one_per_anchor Site.lxml (Site.http (Response 503 ""))
             Site.fresh Site.index_html
             (snd (_get (Site.http (Response 503 "")) index_url [] Site.fresh)));
    vm_compute; reflexivity.
Defined.

Lemma station_report_malformed_timestamp_witness :
  station_report Site.lxml (Site.http (Response 200 Site.boat_html)) 41001 Site.fresh
  = (Raise ValueError,
     snd (_get (Site.http (Response 200 Site.boat_html)) page_url
            (station_params 41001) Site.fresh))
  /\ station_report Site.lxml (Site.http (Response 200 Site.boat_html)) 41001 Site.fresh
     <> (Ok None,
         snd (_get (Site.http (Response 200 Site.boat_html)) page_url
                (station_params 41001) Site.fresh)).
Proof.
  apply (station_report_malformed_timestamp Site.lxml
           (Site.http (Response 200 Site.boat_html)) 41001 Site.fresh Site.boat_html
           _ (Site.el "table" [Site.caption "1234 GMT whenever on a boat:"])
           (Site.caption "1234 GMT whenever on a boat:")
           [(1%nat, "1234 GMT whenever on a boat")]).
  - vm_compute. reflexivity.
  - discriminate.
  - vm_compute. reflexivity.
  - vm_compute. reflexivity.
  - vm_compute. reflexivity.
Defined.

Lemma station_without_metadata_witness :
  station Site.lxml (Site.http (Response 200 Site.nometa_html)) 41001 Site.fresh
  = (Raise AttributeError,
     snd (_get (Site.http (Response 200 Site.nometa_html)) page_url
            (station_params 41001) Site.fresh)).
Proof.
  apply (station_without_metadata Site.lxml (Site.http (Response 200 Site.nometa_html))
           41001 Site.fresh Site.nometa_html).
  - vm_compute. reflexivity.
  - vm_compute. reflexivity.
  - discriminate.
  - apply Exists_cons_hd. vm_compute. reflexivity.
  - vm_compute. reflexivity.
Defined.





(** ** More on the fetch client *)

Lemma get_effects http url params w :
  dirs (snd (_get http url params w)) = dirs w
  /\ (forall path, path <> cache_file url params ->
        files (snd (_get http url params w)) !! path = files w !! path)
  /\ (sent (snd (_get http url params w)) = sent w
      \/ sent (snd (_get http url params w)) = (sent w ++ [(url, params)])%list).
Proof.
  destruct (files w !! cache_file url params) as [c|] eqn:Hf.
  - assert (Hw : snd (_get http url params w) = w).
    { destruct c as [s| |].
      + by rewrite (get_hit http url params w s Hf).
      + rewrite (get_unreadable http url params w _ Hf); [done|]. intros s0. discriminate.
      + rewrite (get_unreadable http url params w _ Hf); [done|]. intros s0. discriminate. }
    rewrite Hw. auto.
  - destruct (http (sent w) (url, params)) as [st text|e] eqn:Hr.
    + destruct (decide (st = 200)) as [->|Hs].
      * rewrite (get_miss_200 http url params w text Hf Hr).
        destruct (decide ("./cache" ∈ dirs w)); cbn [snd with_request dirs files sent].
        -- split; [done|]. split; [|by right].
           intros path Hne. by rewrite lookup_insert_ne.
        -- auto.
      * rewrite (get_miss_status http url params w st text Hf Hr Hs).
        cbn [snd with_request dirs files sent]. auto.
    + rewrite (get_miss_failure http url params w e Hf Hr).
      cbn [snd with_request dirs files sent]. auto.
Qed.

(** X1.  Whatever its outcome, a call of the fetch client leaves the
    directories as they are, changes no file but its own cache file, and
    sends at most one request, for its own URL and parameters. *)
Theorem get_frame http url params w :
  dirs (snd (_get http url params w)) = dirs w
  /\ (forall path, path <> cache_file url params ->
        files (snd (_get http url params w)) !! path = files w !! path)
  /\ (sent (snd (_get http url params w)) = sent w
      \/ sent (snd (_get http url params w)) = (sent w ++ [(url, params)])%list).
Proof. apply get_effects. Qed.

Lemma hex_digit_is_hex x : is_hex (SHA1.hex_digit (Z.land x 15)) = true.
Proof.
  change 15 with (Z.ones 4). rewrite Z.land_ones by lia.
  pose proof (Z.mod_pos_bound x (2 ^ 4) ltac:(lia)) as Hb.
  set (r := x mod 2 ^ 4) in *.
  assert (Hr : r = 0 \/ r = 1 \/ r = 2 \/ r = 3 \/ r = 4 \/ r = 5 \/ r = 6 \/ r = 7
               \/ r = 8 \/ r = 9 \/ r = 10 \/ r = 11 \/ r = 12 \/ r = 13 \/ r = 14
               \/ r = 15) by lia.
  repeat (destruct Hr as [-> | Hr]; [reflexivity |]). by subst r; rewrite Hr.
Qed.

Lemma hex_is_hex k n :
  Forall (fun c => is_hex c = true) (SHA1.hex k n) /\ length (SHA1.hex k n) = k.
Proof.
  induction k as [|k [IH1 IH2]]; cbn [SHA1.hex length]; [by split|].
  split; [constructor; [apply hex_digit_is_hex | exact IH1] | by rewrite IH2].
Qed.

(** X2.  For every URL and parameters, the cache key is forty lower-case
    hexadecimal digits, and the cache file is that key with [.html],
    directly in [./cache]: no URL can name a file elsewhere. *)
Theorem cache_file_shape url params :
  length (Text.chars (cache_key url params)) = 40%nat
  /\ Forall (fun c => is_hex c = true) (Text.chars (cache_key url params))
  /\ cache_file url params = "./cache/" +:+ cache_key url params +:+ ".html"
  /\ dirname (cache_file url params) = "./cache".
Proof.
  split; [|split; [|split]].
  - unfold cache_key, SHA1.hexdigest. rewrite chars_text, !length_app.
    by rewrite !(proj2 (hex_is_hex 8 _)).
  - unfold cache_key, SHA1.hexdigest. rewrite chars_text, !Forall_app.
    repeat split; apply hex_is_hex.
  - apply cache_file_eq.
  - apply cache_dir.
Qed.

(** ** More on the station descriptor *)

Lemma station_file_dir station_id : dirname (station_file station_id) = "stations".
Proof.
  change (station_file station_id)
    with ("stations" +:+ "/" +:+ (Text.str_int station_id +:+ ".pickle")).
  apply dirname_join. rewrite chars_app. unfold no_slash. rewrite Forall_app.
  split; [apply str_int_no_slash | repeat constructor].
Qed.

Lemma feed_url_eq station_id :
  _url [Text.lstrip "/" ("/data/latest_obs/" +:+ Text.str_int station_id +:+ ".rss")]
  = feed_url station_id.
Proof. reflexivity. Qed.

Lemma truthy_inv html page : truthy html = Some page -> html = Some page /\ page <> "".
Proof.
  destruct html as [s|]; [|discriminate]. unfold truthy.
  destruct (String.eqb_spec s ""); [discriminate|].
  intros H. assert (s = page) as -> by congruence. done.
Qed.

Section StationMore.

Variable lxml : string -> Soup.node.
Variable http : list request -> request -> outcome.

Lemma station_cached station_id w s :
  files w !! station_file station_id = Some (PickledStation s) ->
  station lxml http station_id w = (Ok (Some s), w).
Proof.
  intros Hf. unfold station.
  step ltac:(apply try_ok; unfold bind, read_bytes; rewrite Hf; reflexivity).
  reflexivity.
Qed.

Lemma station_unpicklable station_id w c :
  files w !! station_file station_id = Some c ->
  (forall s, c <> PickledStation s) ->
  station lxml http station_id w = (Raise UnpicklingError, w).
Proof.
  intros Hf Hc. unfold station.
  assert (Hr : (data <- read_bytes (station_file station_id) ;;
                s <- loads_station data ;; ret (Some s)) w
               = (Raise UnpicklingError, w)).
  { unfold bind, read_bytes. rewrite Hf.
    destruct c as [t|s|r]; [reflexivity| |reflexivity]. exfalso. exact (Hc s eq_refl). }
  rewrite (bind_raise _ _ w UnpicklingError w); [reflexivity|].
  apply try_other; [exact Hr | discriminate].
Qed.

Lemma station_no_page station_id w html w1 :
  files w !! station_file station_id = None ->
  _get http page_url (station_params station_id) w = (Ok html, w1) ->
  truthy html = None ->
  station lxml http station_id w = (Ok None, w1).
Proof.
  intros Hf Hget Hpage. unfold station. fold page_url.
  step ltac:(apply try_caught, bind_raise, read_bytes_miss, Hf).
  step ltac:(exact Hget). by rewrite Hpage.
Qed.

Lemma station_get_raises station_id w e w1 :
  files w !! station_file station_id = None ->
  _get http page_url (station_params station_id) w = (Raise e, w1) ->
  station lxml http station_id w = (Raise e, w1).
Proof.
  intros Hf Hget. unfold station. fold page_url.
  step ltac:(apply try_caught, bind_raise, read_bytes_miss, Hf).
  by stop ltac:(exact Hget).
Qed.

Lemma station_anchor_cases station_id soup pa acc w acc1 w1 :
  station_anchor station_id soup pa acc w = (Ok acc1, w1) ->
  (acc1 = acc /\ w1 = w)
  \/ exists s, acc1 = Some s
               /\ files w1 !! station_file station_id = Some (PickledStation s)
               /\ built_from station_id soup s.
Proof.
  destruct pa as [parent a]. unfold station_anchor.
  destruct (String.eqb_spec (default "" (Soup.get a "href"))
              ("/data/latest_obs/" +:+ Text.str_int station_id +:+ ".rss")) as [Heq|_].
  - rewrite Heq.
    destruct (Soup.find soup "div" (Soup.attr_is "id" "stn_metadata")) as [[p div]|] eqn:Hdiv;
      [|discriminate].
    destruct (Re.search lat_long_re (Soup.get_text div)) as [m|] eqn:Hm.
    + unfold bind, write_file, ret.
      destruct (decide (dirname (station_file station_id) ∈ dirs w)); [|discriminate].
      intros H. apply pair_inv in H as [H1 H2]. apply ok_inv in H1. subst acc1 w1.
      right. eexists. split; [reflexivity|]. split.
      * cbn [files]. apply (lookup_insert_eq (files w)).
      * split; [reflexivity|]. split; [apply feed_url_eq|].
        exists p, div, m. done.
    + unfold ret. intros H. apply pair_inv in H as [H1 H2]. apply ok_inv in H1.
      left. done.
  - unfold ret. intros H. apply pair_inv in H as [H1 H2]. apply ok_inv in H1.
    left. done.
Qed.

Lemma anchors_cases station_id soup anchors acc w acc1 w1 :
  for_each anchors (station_anchor station_id soup) acc w = (Ok acc1, w1) ->
  (acc1 = acc /\ w1 = w)
  \/ exists s, acc1 = Some s
               /\ files w1 !! station_file station_id = Some (PickledStation s)
               /\ built_from station_id soup s.
Proof.
  revert acc w. induction anchors as [|pa anchors IH]; intros acc w H.
  - cbn [for_each] in H. unfold ret in H. apply pair_inv in H as [H1 H2].
    apply ok_inv in H1. left. done.
  - cbn [for_each] in H.
    apply bind_inv in H as [(acc2 & w2 & Hpa & H)|(e & _ & He)]; [|discriminate].
    apply IH in H as [[-> ->]|H]; [|by right].
    by apply station_anchor_cases in Hpa.
Qed.

(** What a call that returned a descriptor leaves behind. *)
Lemma station_returns station_id w s w1 :
  station lxml http station_id w = (Ok (Some s), w1) ->
  files w1 !! station_file station_id = Some (PickledStation s)
  /\ (files w !! station_file station_id = None ->
      exists page, fst (_get http page_url (station_params station_id) w) = Ok (Some page)
                   /\ built_from station_id (lxml page) s).
Proof.
  destruct (files w !! station_file station_id) as [c|] eqn:Hf.
  - destruct c as [t|s0|r].
    + rewrite (station_unpicklable _ _ _ Hf); [discriminate|]. intros s0. discriminate.
    + rewrite (station_cached _ _ _ Hf). intros H.
      apply pair_inv in H as [H1 H2]. apply ok_inv in H1. subst w1.
      assert (s0 = s) as -> by congruence. split; [exact Hf | discriminate].
    + rewrite (station_unpicklable _ _ _ Hf); [discriminate|]. intros s0. discriminate.
  - destruct (_get http page_url (station_params station_id) w) as [[html|e] wa] eqn:Hget.
    + destruct (truthy html) as [page|] eqn:Hpage.
      * apply truthy_inv in Hpage as [-> Hne].
        rewrite (station_fetches lxml http _ _ _ _ Hf Hget Hne). intros H.
        apply anchors_cases in H as [[H _]|(s' & H1 & H2 & H3)]; [discriminate|].
        assert (s' = s) as -> by congruence.
        split; [exact H2|]. intros _. exists page. done.
      * rewrite (station_no_page _ _ _ _ Hf Hget Hpage). discriminate.
    + rewrite (station_get_raises _ _ _ _ Hf Hget). discriminate.
Qed.

End StationMore.

(** X3.  Once [station] has returned a descriptor, a second call for the
    same station returns the same descriptor from its pickle: it leaves the
    world as it is, whatever the service and the parser would do. *)
Theorem station_twice lxml http station_id w s w1 :
  station lxml http station_id w = (Ok (Some s), w1) ->
  forall lxml' http', station lxml' http' station_id w1 = (Ok (Some s), w1).
Proof.
  intros H lxml' http'. apply station_cached.
  exact (proj1 (station_returns lxml http station_id w s w1 H)).
Qed.

(** X4.  A descriptor that [station] builds from a fetched page has the
    number asked for, the feed address of that number under the base URL,
    and as coordinates the two groups the pattern finds in the text of
    the metadata block. *)
Theorem station_built lxml http station_id w s w1 :
  files w !! station_file station_id = None ->
  station lxml http station_id w = (Ok (Some s), w1) ->
  exists page,
    fst (_get http page_url (station_params station_id) w) = Ok (Some page)
    /\ built_from station_id (lxml page) s.
Proof.
  intros Hf H. exact (proj2 (station_returns lxml http station_id w s w1 H) Hf).
Qed.

Lemma anchors_write_fails station_id soup anchors acc w p div m :
  Exists (fun pa => is_feed_anchor station_id (snd pa) = true) anchors ->
  Soup.find soup "div" (Soup.attr_is "id" "stn_metadata") = Some (p, div) ->
  Re.search lat_long_re (Soup.get_text div) = Some m ->
  "stations" ∉ dirs w ->
  for_each anchors (station_anchor station_id soup) acc w = (Raise FileNotFoundError, w).
Proof.
  intros Hex Hdiv Hm Hdir. induction anchors as [|pa anchors IH]; [by inversion Hex|].
  cbn [for_each].
  destruct (is_feed_anchor station_id (snd pa)) eqn:Hpa.
  - assert (Hstep : station_anchor station_id soup pa acc w = (Raise FileNotFoundError, w)).
    { destruct pa as [parent a]. unfold is_feed_anchor in Hpa. cbn [snd] in Hpa.
      unfold station_anchor. rewrite Hpa, Hdiv, Hm.
      by stop ltac:(apply write_file_fail; by rewrite station_file_dir). }
    by stop ltac:(exact Hstep).
  - step ltac:(by apply station_anchor_other).
    apply IH. inversion Hex as [? ? H|]; [congruence|done].
Qed.

(** X5.  [station] does not create the directory of its pickles: when the
    page has the anchor, the metadata block and the coordinates, and there
    is no directory [stations], the call raises [FileNotFoundError]
    instead of returning the descriptor. *)
Theorem station_needs_directory lxml http station_id w page w1 p div m :
  files w !! station_file station_id = None ->
  _get http page_url (station_params station_id) w = (Ok (Some page), w1) ->
  page <> "" ->
  Exists (fun pa => is_feed_anchor station_id (snd pa) = true)
    (Soup.find_all (lxml page) "a" (Soup.has_attr "href")) ->
  Soup.find (lxml page) "div" (Soup.attr_is "id" "stn_metadata") = Some (p, div) ->
  Re.search lat_long_re (Soup.get_text div) = Some m ->
  "stations" ∉ dirs w ->
  station lxml http station_id w = (Raise FileNotFoundError, w1).
Proof.
  intros Hf Hget Hpage Hex Hdiv Hm Hdir.
  rewrite (station_fetches _ _ _ _ _ _ Hf Hget Hpage).
  eapply anchors_write_fails; [exact Hex | exact Hdiv | exact Hm |].
  pose proof (get_effects http page_url (station_params station_id) w) as [Hd _].
  rewrite Hget in Hd. cbn [snd] in Hd. by rewrite Hd.
Qed.

(** ** More on the patterns *)

Lemma mt_lit {A} l bol s cs (k : bool -> list ascii -> Re.caps -> option A) :
  Re.mt (Re.seq (map (fun c => Re.Cls (Re.chr_is c)) l)) bol s cs k
  = if Py.prefixb l s
    then k (match l with [] => bol | _ :: _ => false end) (skipn (length l) s) cs
    else None.
Proof.
  revert bol s. induction l as [|c l IH]; intros bol s; [reflexivity|].
  destruct l as [|c' l].
  - cbn [map Re.seq Re.mt Py.prefixb length skipn].
    destruct s as [|x s]; [reflexivity|]. unfold Re.chr_is.
    destruct (Text.eqc c x); reflexivity.
  - change (Re.seq (map (fun c0 => Re.Cls (Re.chr_is c0)) (c :: c' :: l)))
      with (Re.Seq (Re.Cls (Re.chr_is c))
              (Re.seq (map (fun c0 => Re.Cls (Re.chr_is c0)) (c' :: l)))).
    cbn [Re.mt]. destruct s as [|x s]; [reflexivity|].
    change (Py.prefixb (c :: c' :: l) (x :: s))
      with (Text.eqc c x && Py.prefixb (c' :: l) s).
    unfold Re.chr_is at 1. destruct (Text.eqc c x); [|reflexivity].
    rewrite IH. reflexivity.
Qed.

Lemma startswith_prefixb key label :
  Text.startswith key label = Py.prefixb (Text.chars label) (Text.chars key).
Proof.
  revert key. induction label as [|a label IH]; intros key; [reflexivity|].
  destruct key as [|b key]; [reflexivity|].
  cbn [Text.startswith Text.chars list_ascii_of_string Py.prefixb].
  f_equal. apply IH.
Qed.

Lemma search_from_bol r s : Re.search_from (Re.Seq Re.Bol r) false s = None.
Proof. induction s as [|c s IH]; cbn [Re.search_from Re.mt]; [reflexivity | exact IH]. Qed.

Lemma search_bol r s :
  Re.search (Re.Seq Re.Bol r) s
  = Re.mt r true (Text.chars s) [] (fun _ _ cs => Some cs).
Proof.
  unfold Re.search. destruct (Text.chars s) as [|c l]; cbn [Re.search_from Re.mt].
  - by destruct (Re.mt r true [] [] _).
  - rewrite search_from_bol. by destruct (Re.mt r true (c :: l) [] _).
Qed.

(** The search for [^label] is the test that the text starts with the
    label. *)
Lemma matches_label label key :
  matches (label_re label) key = Text.startswith key label.
Proof.
  unfold matches, label_re. rewrite search_bol. unfold Re.lit. rewrite mt_lit.
  rewrite startswith_prefixb. by destruct (Py.prefixb _ _).
Qed.

(** ** More on the tokens *)

Lemma text_nonempty l : l <> [] -> Text.text l <> "".
Proof. intros H Heq. apply H. by rewrite <- (chars_text l), Heq. Qed.

Lemma split_ws_tokens cur l :
  Forall (fun c => Text.is_space c = false) cur ->
  Forall token_ok (Text.split_ws cur l).
Proof.
  revert cur. induction l as [|c l IH]; intros cur Hcur.
  - cbn [Text.split_ws]. destruct cur as [|a cur]; [constructor|].
    constructor; [|constructor]. split.
    + apply text_nonempty. intros H. apply (f_equal (@length ascii)) in H.
      rewrite length_rev in H. discriminate.
    + rewrite chars_text. by apply Forall_rev.
  - cbn [Text.split_ws]. destruct (Text.is_space c) eqn:Hc.
    + destruct cur as [|a cur]; [apply IH; constructor|].
      constructor; [|apply IH; constructor]. split.
      * apply text_nonempty. intros H. apply (f_equal (@length ascii)) in H.
        rewrite length_rev in H. discriminate.
      * rewrite chars_text. by apply Forall_rev.
    + apply IH. by constructor.
Qed.

Lemma split_tokens s : Forall token_ok (Text.split s).
Proof. apply split_ws_tokens. constructor. Qed.

(** ** More on the scan of the rows *)

(** The body of the loop, in terms of the label and the value of the row *)
Lemma scan_row_cells report row key value :
  row_cells row = Some (key, value) ->
  scan_row report row =
    if Text.startswith key "Wave Height" then
      mkReport (timestamp report) (Some (Text.split value))
        (wave_dominant_period report) (wave_average_period report)
        (wave_mean_degrees report) (water_temperature report)
    else if Text.startswith key "Dominant Wave Period" then
      mkReport (timestamp report) (wave_height report) (Some (Text.split value))
        (wave_average_period report) (wave_mean_degrees report)
        (water_temperature report)
    else if Text.startswith key "Average Period" then
      mkReport (timestamp report) (wave_height report)
        (wave_dominant_period report) (Some (Text.split value))
        (wave_mean_degrees report) (water_temperature report)
    else if Text.startswith key "Mean Wave Direction" then
      match Re.search deg_re value with
      | Some m =>
          mkReport (timestamp report) (wave_height report)
            (wave_dominant_period report) (wave_average_period report)
            (Some (Text.split (Re.group 1 m))) (water_temperature report)
      | None => report
      end
    else if Text.startswith key "Water Temperature" then
      mkReport (timestamp report) (wave_height report)
        (wave_dominant_period report) (wave_average_period report)
        (wave_mean_degrees report) (Some (Text.split value))
    else report.
Proof.
  unfold row_cells, scan_row.
  destruct (map snd (Soup.find_all row "td" Soup.any)) as [|c0 [|c1 [|c2 rest]]];
    try discriminate.
  intros H. apply (f_equal (fun o => default ("", "") o)) in H. cbn [default] in H.
  apply pair_inv in H as [-> ->]. by rewrite !matches_label.
Qed.

Lemma scan_row_no_cells report row : row_cells row = None -> scan_row report row = report.
Proof.
  unfold row_cells, scan_row.
  by destruct (map snd (Soup.find_all row "td" Soup.any)) as [|c0 [|c1 [|c2 rest]]].
Qed.

Lemma prefixes_compare l1 l2 k :
  Py.prefixb l1 k = true -> Py.prefixb l2 k = true ->
  Py.prefixb l1 l2 || Py.prefixb l2 l1 = true.
Proof.
  revert l2 k. induction l1 as [|a l1 IH]; intros l2 k H1 H2; [reflexivity|].
  destruct l2 as [|b l2]; [reflexivity|]. destruct k as [|c k]; [discriminate|].
  cbn [Py.prefixb] in *.
  apply andb_prop in H1 as [Ha H1]. apply andb_prop in H2 as [Hb H2].
  apply Ascii.eqb_eq in Ha as ->. apply Ascii.eqb_eq in Hb as ->.
  unfold Text.eqc. rewrite Ascii.eqb_refl. cbn [andb]. by eapply IH.
Qed.

(** Of two labels neither of which starts the other, a text starts with
    one at most. *)
Lemma labels_exclusive key l1 l2 :
  Text.startswith key l1 = true ->
  Py.prefixb (Text.chars l1) (Text.chars l2)
  || Py.prefixb (Text.chars l2) (Text.chars l1) = false ->
  Text.startswith key l2 = false.
Proof.
  intros H1 Hne. destruct (Text.startswith key l2) eqn:H2; [|reflexivity].
  rewrite startswith_prefixb in H1, H2.
  pose proof (prefixes_compare _ _ _ H1 H2). congruence.
Qed.

(** X6.  The label of a row is matched by prefix: a row whose label starts
    with Wave Height, Dominant Wave Period, Average Period or Water
    Temperature puts the tokens of its value in that field, whatever
    follows the label. *)
Theorem scan_row_by_prefix report row key value :
  row_cells row = Some (key, value) ->
  (Text.startswith key "Wave Height" = true ->
   wave_height (scan_row report row) = Some (Text.split value))
  /\ (Text.startswith key "Dominant Wave Period" = true ->
      wave_dominant_period (scan_row report row) = Some (Text.split value))
  /\ (Text.startswith key "Average Period" = true ->
      wave_average_period (scan_row report row) = Some (Text.split value))
  /\ (Text.startswith key "Water Temperature" = true ->
      water_temperature (scan_row report row) = Some (Text.split value)).
Proof.
  intros Hc. rewrite (scan_row_cells _ _ _ _ Hc).
  split; [|split; [|split]]; intros H.
  - by rewrite H.
  - rewrite (labels_exclusive key _ "Wave Height" H) by reflexivity. by rewrite H.
  - rewrite (labels_exclusive key _ "Wave Height" H) by reflexivity.
    rewrite (labels_exclusive key _ "Dominant Wave Period" H) by reflexivity.
    by rewrite H.
  - rewrite (labels_exclusive key _ "Wave Height" H) by reflexivity.
    rewrite (labels_exclusive key _ "Dominant Wave Period" H) by reflexivity.
    rewrite (labels_exclusive key _ "Average Period" H) by reflexivity.
    rewrite (labels_exclusive key _ "Mean Wave Direction" H) by reflexivity.
    by rewrite H.
Qed.

Lemma scan_row_keeps_height report row :
  labelled "Wave Height" row = false ->
  wave_height (scan_row report row) = wave_height report.
Proof.
  unfold labelled. destruct (row_cells row) as [[key value]|] eqn:Hc.
  - intros H. rewrite (scan_row_cells _ _ _ _ Hc), H.
    repeat match goal with
           | |- context [if ?b then _ else _] => destruct b
           | |- context [match Re.search ?r ?s with _ => _ end] =>
               destruct (Re.search r s)
           end; reflexivity.
  - intros _. by rewrite scan_row_no_cells.
Qed.

Lemma scan_rows_keep_height report rows :
  Forall (fun row => labelled "Wave Height" row = false) rows ->
  wave_height (fold_left scan_row rows report) = wave_height report.
Proof.
  intros H. revert report. induction H as [|row rows Hrow _ IH]; intros report;
    cbn [fold_left]; [done|].
  by rewrite IH, scan_row_keeps_height.
Qed.

(** X7.  The rows are scanned in order and a later row overwrites an
    earlier one: the wave height of the report is the value of the last
    row whose label starts with Wave Height. *)
Theorem last_wave_height_wins report pre row post key value :
  row_cells row = Some (key, value) ->
  Text.startswith key "Wave Height" = true ->
  Forall (fun row' => labelled "Wave Height" row' = false) post ->
  wave_height (fold_left scan_row (pre ++ row :: post) report)
  = Some (Text.split value).
Proof.
  intros Hc Hk Hpost. rewrite fold_left_app. cbn [fold_left].
  rewrite (scan_rows_keep_height _ _ Hpost).
  by rewrite (scan_row_cells _ _ _ _ Hc), Hk.
Qed.

(** X8.  A Mean Wave Direction row in whose value the pattern finds no
    number followed by deg changes nothing: the field keeps what it had. *)
Theorem mean_direction_without_degrees report row key value :
  row_cells row = Some (key, value) ->
  Text.startswith key "Mean Wave Direction" = true ->
  Re.search deg_re value = None ->
  scan_row report row = report.
Proof.
  intros Hc Hk Hm. rewrite (scan_row_cells _ _ _ _ Hc).
  rewrite (labels_exclusive key _ "Wave Height" Hk) by reflexivity.
  rewrite (labels_exclusive key _ "Dominant Wave Period" Hk) by reflexivity.
  rewrite (labels_exclusive key _ "Average Period" Hk) by reflexivity.
  by rewrite Hk, Hm.
Qed.

Lemma scan_row_timestamp report row : timestamp (scan_row report row) = timestamp report.
Proof.
  unfold scan_row.
  destruct (map snd (Soup.find_all row "td" Soup.any)) as [|c0 [|c1 [|c2 rest]]];
    try reflexivity.
  repeat match goal with
         | |- context [if ?b then _ else _] => destruct b
         | |- context [match Re.search ?r ?s with _ => _ end] =>
             destruct (Re.search r s)
         end; reflexivity.
Qed.

Lemma scan_rows_timestamp report rows :
  timestamp (fold_left scan_row rows report) = timestamp report.
Proof.
  revert report. induction rows as [|row rows IH]; intros report; cbn [fold_left]; [done|].
  by rewrite IH, scan_row_timestamp.
Qed.

Lemma scan_row_tokenized report row : tokenized report -> tokenized (scan_row report row).
Proof.
  intros (H1 & H2 & H3 & H4 & H5). unfold scan_row.
  destruct (map snd (Soup.find_all row "td" Soup.any)) as [|c0 [|c1 [|c2 rest]]];
    try (by repeat split).
  repeat match goal with
         | |- context [if ?b then _ else _] => destruct b
         | |- context [match Re.search ?r ?s with _ => _ end] =>
             destruct (Re.search r s)
         end;
    unfold tokenized; cbn [wave_height wave_dominant_period wave_average_period
                            wave_mean_degrees water_temperature field_ok];
    repeat split; try done; apply split_tokens.
Qed.

Lemma scan_rows_tokenized report rows :
  tokenized report -> tokenized (fold_left scan_row rows report).
Proof.
  revert report. induction rows as [|row rows IH]; intros report H; cbn [fold_left]; [done|].
  by apply IH, scan_row_tokenized.
Qed.

(** ** More on the report *)

Lemma makedirs_files station_id w :
  exists w', try_except (makedirs "reports" (Text.str_int station_id))
               FileExistsError (ret tt) w = (Ok tt, w')
             /\ report_dir station_id ∈ dirs w'
             /\ files w' = files w
             /\ sent w' = sent w.
Proof.
  unfold try_except, makedirs.
  change ("reports" +:+ "/" +:+ Text.str_int station_id) with (report_dir station_id).
  destruct (decide (report_dir station_id ∈ dirs w)) as [Hin|Hout].
  - rewrite decide_True by reflexivity. exists w. done.
  - eexists. split; [reflexivity|]. cbn [dirs sent files].
    split; [set_solver|done].
Qed.

Lemma persist_report_files station_id t report w :
  exists w',
    (try_except (makedirs "reports" (Text.str_int station_id))
       FileExistsError (ret tt) ;;;
     write_file (report_file station_id t) (PickledReport report) ;;;
     ret (Some report)) w = (Ok (Some report), w')
    /\ files w' = <[report_file station_id t := PickledReport report]> (files w)
    /\ report_dir station_id ∈ dirs w'
    /\ sent w' = sent w.
Proof.
  destruct (makedirs_files station_id w) as (w1 & Hm & Hdir & Hfiles & Hs).
  eexists. split.
  - step ltac:(exact Hm).
    step ltac:(apply write_file_ok; rewrite report_file_dir; exact Hdir).
    reflexivity.
  - cbn [files dirs sent]. by rewrite Hfiles.
Qed.

Section ReportMore.

Variable lxml : string -> Soup.node.
Variable http : list request -> request -> outcome.

Lemma station_report_none station_id w html w1 :
  _get http page_url (station_params station_id) w = (Ok html, w1) ->
  truthy html = None
  \/ (exists page, truthy html = Some page
        /\ (Soup.find (lxml page) "caption" (Soup.class_is "titleDataHeader") = None
            \/ exists table caption,
                 Soup.find (lxml page) "caption" (Soup.class_is "titleDataHeader")
                   = Some (table, caption)
                 /\ Re.search caption_re (Soup.get_text caption) = None)) ->
  station_report lxml http station_id w = (Ok None, w1).
Proof.
  intros Hget H. unfold station_report. fold page_url. step ltac:(exact Hget).
  destruct H as [->|(page & -> & H)]; [reflexivity|].
  step ltac:(reflexivity).
  destruct H as [->|(table & caption & -> & ->)]; reflexivity.
Qed.

(** What a call that returned a report has done. *)
Lemma station_report_returns station_id w r w2 :
  station_report lxml http station_id w = (Ok (Some r), w2) ->
  exists page w1 table caption m t,
    _get http page_url (station_params station_id) w = (Ok (Some page), w1)
    /\ page <> ""
    /\ Soup.find (lxml page) "caption" (Soup.class_is "titleDataHeader")
       = Some (table, caption)
    /\ Re.search caption_re (Soup.get_text caption) = Some m
    /\ DT.strptime (Re.group 1 m) = Some t
    /\ r = fold_left scan_row (map snd (Soup.find_all table "tr" Soup.any))
             (new_report t)
    /\ files w2 = <[report_file station_id t := PickledReport r]> (files w1)
    /\ report_dir station_id ∈ dirs w2
    /\ sent w2 = sent w1.
Proof.
  destruct (_get http page_url (station_params station_id) w) as [[html|e] w1] eqn:Hget.
  - destruct (truthy html) as [page|] eqn:Hpage.
    + destruct (Soup.find (lxml page) "caption" (Soup.class_is "titleDataHeader"))
        as [[table caption]|] eqn:Hcap.
      * destruct (Re.search caption_re (Soup.get_text caption)) as [m|] eqn:Hm.
        -- destruct (DT.strptime (Re.group 1 m)) as [t|] eqn:Ht.
           ++ destruct (persist_report_files station_id t
                          (fold_left scan_row
                             (map snd (Soup.find_all table "tr" Soup.any))
                             (new_report t)) w1) as (w' & Hp & Hfiles & Hdir & Hs).
              assert (Hrun : station_report lxml http station_id w
                             = (Ok (Some (fold_left scan_row
                                            (map snd (Soup.find_all table "tr" Soup.any))
                                            (new_report t))), w')).
              { unfold station_report. fold page_url. step ltac:(exact Hget).
                rewrite Hpage. step ltac:(reflexivity). rewrite Hcap, Hm, Ht. exact Hp. }
              rewrite Hrun. intros H. apply pair_inv in H as [H1 H2].
              apply ok_inv in H1. subst w2.
              assert (Hr : fold_left scan_row
                             (map snd (Soup.find_all table "tr" Soup.any))
                             (new_report t) = r) by congruence.
              rewrite Hr in *. apply truthy_inv in Hpage as [-> Hne].
              exists page, w1, table, caption, m, t. done.
           ++ assert (Hrun : station_report lxml http station_id w
                             = (Raise ValueError, w1)).
              { unfold station_report. fold page_url. step ltac:(exact Hget).
                rewrite Hpage. step ltac:(reflexivity). by rewrite Hcap, Hm, Ht. }
              rewrite Hrun. discriminate.
        -- rewrite (station_report_none station_id w html w1 Hget); [discriminate|].
           right. exists page. split; [done|]. right. eauto.
      * rewrite (station_report_none station_id w html w1 Hget); [discriminate|].
        right. exists page. split; [done|]. by left.
    + rewrite (station_report_none station_id w html w1 Hget); [discriminate|]. by left.
  - unfold station_report. fold page_url.
    rewrite (bind_raise _ _ w e w1 Hget). discriminate.
Qed.

End ReportMore.

(** X9.  [station_report] returns the absent result, and writes no report,
    when the fetch yields no body or an empty one, when the page has no
    caption with the marker, and when the caption holds no time of the
    pattern. *)
Theorem station_report_absent lxml http station_id w html w1 :
  _get http page_url (station_params station_id) w = (Ok html, w1) ->
  truthy html = None
  \/ (exists page, truthy html = Some page
        /\ (Soup.find (lxml page) "caption" (Soup.class_is "titleDataHeader") = None
            \/ exists table caption,
                 Soup.find (lxml page) "caption" (Soup.class_is "titleDataHeader")
                   = Some (table, caption)
                 /\ Re.search caption_re (Soup.get_text caption) = None)) ->
  station_report lxml http station_id w = (Ok None, w1).
Proof. apply station_report_none. Qed.

(** X10.  A report that [station_report] returns has been written: the
    file named after the station and the time of the report holds it, in
    the directory of the station, which exists afterwards even if it did
    not before. *)
Theorem station_report_persists lxml http station_id w r w2 :
  station_report lxml http station_id w = (Ok (Some r), w2) ->
  files w2 !! report_file station_id (timestamp r) = Some (PickledReport r)
  /\ report_dir station_id ∈ dirs w2.
Proof.
  intros H.
  destruct (station_report_returns lxml http station_id w r w2 H)
    as (page & w1 & table & caption & m & t & _ & _ & _ & _ & _ & Hr & Hf & Hd & _).
  split; [|exact Hd].
  assert (Ht : timestamp r = t) by (rewrite Hr; apply scan_rows_timestamp).
  rewrite Ht, Hf. apply (lookup_insert_eq (files w1)).
Qed.

(** X11.  Every measurement of a report that [station_report] returns is
    absent or a list of tokens, none of them empty, none with white space
    in it. *)
Theorem station_report_tokenized lxml http station_id w r w2 :
  station_report lxml http station_id w = (Ok (Some r), w2) -> tokenized r.
Proof.
  intros H.
  destruct (station_report_returns lxml http station_id w r w2 H)
    as (page & w1 & table & caption & m & t & _ & _ & _ & _ & _ & -> & _).
  apply scan_rows_tokenized. by repeat split.
Qed.

(** ** More on the catalog and the batch *)

Lemma int_digits_nonneg acc l n :
  0 <= acc -> Text.int_digits acc l = Some n -> 0 <= n.
Proof.
  revert acc. induction l as [|c l IH]; intros acc Hacc H; cbn [Text.int_digits] in H.
  - assert (acc = n) by congruence. lia.
  - destruct (Text.is_digit c) eqn:Hc; [|discriminate].
    eapply IH; [|exact H]. unfold Text.is_digit in Hc.
    apply andb_prop in Hc as [Hc _]. lia.
Qed.

Lemma anchor_station_nonneg a n : anchor_station a = Some n -> 0 <= n.
Proof.
  unfold anchor_station.
  destruct (Re.search station_href_re (default "" (Soup.get a "href"))) as [m|];
    [|discriminate].
  change (Some m ≫= (fun m0 => Text.int_of_str (Re.group 1 m0)))
    with (Text.int_of_str (Re.group 1 m)).
  unfold Text.int_of_str. destruct (Text.chars (Re.group 1 m)) as [|c l]; [discriminate|].
  apply int_digits_nonneg. lia.
Qed.

Lemma omap_nonneg anchors : Forall (fun n => 0 <= n) (omap anchor_station anchors).
Proof.
  induction anchors as [|a anchors IH]; [constructor|].
  change (omap anchor_station (a :: anchors))
    with (match anchor_station a with
          | Some y => y :: omap anchor_station anchors
          | None => omap anchor_station anchors
          end).
  destruct (anchor_station a) as [n|] eqn:Ha; [|exact IH].
  constructor; [by eapply anchor_station_nonneg | exact IH].
Qed.

Lemma dom_fold_put kvs (d : gmap Z (option StationReport)) :
  dom (fold_left put kvs d) = dom d ∪ list_to_set (map fst kvs).
Proof.
  revert d. induction kvs as [|[k v] kvs IH]; intros d; cbn [fold_left map list_to_set].
  - by rewrite (right_id_L ∅ (∪)).
  - rewrite IH. unfold put. cbn [fst snd]. rewrite dom_insert_L.
    by rewrite (comm_L (∪) {[k]} (dom d)), <- (assoc_L (∪)).
Qed.

Lemma zip_fst {X Y} (l : list X) (k : list Y) :
  length l = length k -> map fst (zip l k) = l.
Proof.
  revert k. induction l as [|a l IH]; intros [|b k] H; try discriminate; [done|].
  cbn [zip zip_with map fst]. f_equal. apply IH. cbn [length] in H. lia.
Qed.

Section RunMore.

Variable lxml : string -> Soup.node.
Variable http : list request -> request -> outcome.

(** X12.  The numbers of the catalog are never negative. *)
Theorem station_list_nonneg w stations w1 :
  station_list lxml http w = (Ok stations, w1) -> Forall (fun n => 0 <= n) stations.
Proof.
  unfold station_list. fold index_url. intros H.
  apply bind_inv in H as [(html & wa & Hget & H)|(e & _ & He)]; [|discriminate].
  destruct html as [page|]; [|discriminate].
  apply bind_inv in H as [(soup & wb & Hsoup & H)|(e & _ & He)]; [|discriminate].
  unfold ret in H. apply pair_inv in H as [H _]. apply ok_inv in H as <-.
  rewrite fold_list_anchor. apply omap_nonneg.
Qed.

(** X13.  The mapping that [run] returns has as keys the numbers of the
    catalog, each once: the duplicates of the catalog collapse here. *)
Theorem run_keys w stations w0 d w2 :
  station_list lxml http w = (Ok stations, w0) ->
  run lxml http w = (Ok d, w2) ->
  dom d = list_to_set stations.
Proof.
  intros Hlist H. unfold run in H.
  erewrite bind_ok in H by exact Hlist.
  apply bind_inv in H as [(rs & wa & Hg & H)|(e & _ & He)]; [|discriminate].
  unfold ret in H. apply pair_inv in H as [H _]. apply ok_inv in H as <-.
  pose proof (gather_length _ _ _ _ Hg) as Hlen. rewrite length_map in Hlen.
  unfold reports_dict. rewrite dom_fold_put, zip_fst by done.
  by rewrite dom_empty_L, (left_id_L ∅ (∪)).
Qed.


(** X15.  When the fetch of the index page yields no body, [run] raises
    [TypeError] and no station is asked for. *)
Theorem run_without_index w w1 :
  _get http index_url [] w = (Ok None, w1) ->
  run lxml http w = (Raise TypeError, w1).
Proof.
  intros H. unfold run.
  assert (Hlist : station_list lxml http w = (Raise TypeError, w1)).
  { unfold station_list. fold index_url. step ltac:(exact H). reflexivity. }
  by stop ltac:(exact Hlist).
Qed.

End RunMore.

(** ** The radial search *)



(** ** The upload *)

Example dumps_station :
  Json.dumps (Json.OList [asdict_station (mkStation 46086 "RSS Station 46086" "u"
                                            "32.491 N" "118.035 W")])
  = Text.text (map Text.chr
      [91; 123; 34; 105; 100; 34; 58; 32; 52; 54; 48; 56; 54; 44; 32; 34; 110; 97;
       109; 101; 34; 58; 32; 34; 82; 83; 83; 32; 83; 116; 97; 116; 105; 111; 110;
       32; 52; 54; 48; 56; 54; 34; 44; 32; 34; 114; 115; 115; 34; 58; 32; 34; 117;
       34; 44; 32; 34; 108; 97; 116; 105; 116; 117; 100; 101; 34; 58; 32; 34; 51;
       50; 46; 52; 57; 49; 32; 78; 34; 44; 32; 34; 108; 111; 110; 103; 105; 116;
       117; 100; 101; 34; 58; 32; 34; 49; 49; 56; 46; 48; 51; 53; 32; 87; 34; 125;
       93]).
Proof. vm_compute. reflexivity. Qed.

Example dumps_escapes :
  Json.dumps (Json.OStr (Text.text (map Text.chr [34; 92; 10; 127; 233; 97])))
  = Text.text (map Text.chr
      [34; 92; 34; 92; 92; 92; 110; 92; 117; 48; 48; 55; 102; 92; 117; 48; 48;
       101; 57; 97; 34]).
Proof. vm_compute. reflexivity. Qed.

Example dumps_report :
  Json.dumps (asdict_report (mkReport (DT.mk 7 1 2 3 4) (Some ["4.2"; "ft"]) None
                               (Some []) None None))
  = Json.dumps (Json.ODict
      [("timestamp", Json.OStr "0007-01-02T03:04:00");
       ("wave_height", Json.OList [Json.OStr "4.2"; Json.OStr "ft"]);
       ("wave_dominant_period", Json.ONone);
       ("wave_average_period", Json.OList []);
       ("wave_mean_degrees", Json.ONone);
       ("water_temperature", Json.ONone)]).
Proof. vm_compute. reflexivity. Qed.

Section UpdateFacts.

Variable lxml : string -> Soup.node.
Variable http : list request -> request -> outcome.
Variable put_object : string -> string -> M unit.

Lemma upload_nothing w : upload_data put_object [] w = (Ok tt, w).
Proof. reflexivity. Qed.


End UpdateFacts.

(** X17.  [update_reports] uploads nothing.  As soon as one station has a
    report it raises [AttributeError], because the report of the client
    has no station number to name the object after; when no station has a
    report it returns with nothing to upload.  The object store is not
    called in either case. *)
Theorem update_reports_outcome lxml http put_object w stations w0 rs w1 :
  station_list lxml http w = (Ok stations, w0) ->
  gather (map (station_report lxml http) stations) w0 = (Ok rs, w1) ->
  update_reports lxml http put_object w
  = (match omap (fun x => x) rs with
     | [] => Ok tt
     | _ :: _ => Raise AttributeError
     end, w1).
Proof.
  intros Hlist Hg. unfold update_reports.
  step ltac:(exact Hlist). step ltac:(exact Hg).
  destruct (omap (fun x => x) rs) as [|r reports].
  - step ltac:(reflexivity). apply upload_nothing.
  - by stop ltac:(reflexivity).
Qed.


(** ** The further statements on the small site *)

Lemma station_twice_witness :
  station (fun _ => Site.document []) (fun _ _ => Failure ClientConnectionError) 46086
    (snd (station Site.lxml (Site.http (Response 503 "")) 46086 Site.fresh))
  = (Ok (Some (mkStation 46086 "RSS Station 46086" (feed_url 46086)
                 "32.491 N" "118.035 W")),
     snd (station Site.lxml (Site.http (Response 503 "")) 46086 Site.fresh)).
Proof.
  apply (station_twice Site.lxml (Site.http (Response 503 "")) 46086 Site.fresh).
  vm_compute. reflexivity.
Defined.

Lemma station_built_witness :
  exists page,
    fst (_get (Site.http (Response 503 "")) page_url (station_params 46086) Site.fresh)
    = Ok (Some page)
    /\ built_from 46086 (Site.lxml page)
         (mkStation 46086 "RSS Station 46086" (feed_url 46086) "32.491 N" "118.035 W").
Proof.
  apply (station_built Site.lxml (Site.http (Response 503 "")) 46086 Site.fresh _
           (snd (station Site.lxml (Site.http (Response 503 "")) 46086 Site.fresh)));
    vm_compute; reflexivity.
Defined.

Lemma station_needs_directory_witness :
  station Site.lxml (Site.http (Response 503 "")) 46086 (mkWorld ∅ {["./cache"]} [])
  = (Raise FileNotFoundError,
     snd (_get (Site.http (Response 503 "")) page_url (station_params 46086)
            (mkWorld ∅ {["./cache"]} []))).
Proof.
  apply (station_needs_directory Site.lxml (Site.http (Response 503 "")) 46086
           (mkWorld ∅ {["./cache"]} []) Site.report_html _
           (Site.el "body" [ Site.el "h1" [Site.a_href "/data/latest_obs/46086.rss" "RSS";
                                           Site.txt " Station 46086"];
                             Soup.Tag "div" [("id", "stn_metadata")]
                               [Site.txt "Owned by NDBC 32.491 N 118.035 W"];
                             Site.el "table"
                               [ Site.caption "2050 GMT on 11/04/2019:";
                                 Site.row "Wave Height" "4.2 ft";
                                 Site.row "Air Pressure" "30.1 in";
                                 Site.row "Mean Wave Direction"
                                   "(from the NNE) some text 38 deg" ] ])
           (Soup.Tag "div" [("id", "stn_metadata")]
              [Site.txt "Owned by NDBC 32.491 N 118.035 W"])
           [(2%nat, "118.035 W"); (1%nat, "32.491 N")]).
  - vm_compute. reflexivity.
  - vm_compute. reflexivity.
  - discriminate.
  - apply Exists_cons_hd. vm_compute. reflexivity.
  - vm_compute. reflexivity.
  - vm_compute. reflexivity.
  - vm_compute. intros H. discriminate H.
Defined.

Lemma station_without_anchor_witness :
  station Site.lxml (Site.http (Response 200 Site.bare_html)) 41001 Site.fresh
  = (Ok None,
     snd (_get (Site.http (Response 200 Site.bare_html)) page_url
            (station_params 41001) Site.fresh)).
Proof.
  apply (station_without_anchor Site.lxml (Site.http (Response 200 Site.bare_html))
           41001 Site.fresh Site.bare_html).
  - vm_compute. reflexivity.
  - vm_compute. reflexivity.
  - discriminate.
  - vm_compute. constructor.
Defined.

Lemma station_without_coordinates_witness :
  station Site.lxml (Site.http (Response 200 Site.nocoord_html)) 41001 Site.fresh
  = (Ok None,
     snd (_get (Site.http (Response 200 Site.nocoord_html)) page_url
            (station_params 41001) Site.fresh)).
Proof.
  apply (station_without_coordinates Site.lxml
           (Site.http (Response 200 Site.nocoord_html)) 41001 Site.fresh
           Site.nocoord_html _
           (Site.el "body" [ Site.el "h1" [Site.a_href "/data/latest_obs/41001.rss" "RSS";
                                           Site.txt " Station 41001"];
                             Soup.Tag "div" [("id", "stn_metadata")]
                               [Site.txt "Owned by NDBC"] ])
           (Soup.Tag "div" [("id", "stn_metadata")] [Site.txt "Owned by NDBC"])).
  - vm_compute. reflexivity.
  - vm_compute. reflexivity.
  - discriminate.
  - vm_compute. reflexivity.
  - vm_compute. reflexivity.
Defined.

Lemma scan_row_by_prefix_witness :
  wave_height (scan_row (new_report (DT.mk 2019 11 4 20 50))
                 (Site.row "Wave Height (WVHT):" "4.2 ft"))
  = Some (Text.split "4.2 ft").
Proof.
  apply (proj1 (scan_row_by_prefix (new_report (DT.mk 2019 11 4 20 50))
                  (Site.row "Wave Height (WVHT):" "4.2 ft")
                  "Wave Height (WVHT):" "4.2 ft" eq_refl)).
  vm_compute. reflexivity.
Defined.

Lemma last_wave_height_wins_witness :
  wave_height (fold_left scan_row
                 ([Site.row "Wave Height" "1.0 ft"]
                  ++ Site.row "Wave Height" "4.2 ft" :: [Site.row "Air Pressure" "30.1 in"])
                 (new_report (DT.mk 2019 11 4 20 50)))
  = Some (Text.split "4.2 ft").
Proof.
  apply (last_wave_height_wins _ _ _ _ "Wave Height" "4.2 ft").
  - vm_compute. reflexivity.
  - vm_compute. reflexivity.
  - repeat constructor.
Defined.

Lemma mean_direction_without_degrees_witness :
  scan_row (mkReport (DT.mk 2019 11 4 20 50) None None None (Some ["38"; "deg"]) None)
    (Site.row "Mean Wave Direction" "(from the NNE)")
  = mkReport (DT.mk 2019 11 4 20 50) None None None (Some ["38"; "deg"]) None.
Proof.
  apply (mean_direction_without_degrees _ _ "Mean Wave Direction" "(from the NNE)");
    vm_compute; reflexivity.
Defined.

Lemma station_report_absent_witness :
  station_report Site.lxml (Site.http (Response 200 "")) 41001 Site.fresh
  = (Ok None,
     snd (_get (Site.http (Response 200 "")) page_url (station_params 41001) Site.fresh)).
Proof.
  apply (station_report_absent Site.lxml (Site.http (Response 200 "")) 41001 Site.fresh
           (Some "")).
  - vm_compute. reflexivity.
  - left. reflexivity.
Defined.

Lemma station_report_persists_witness :
  files (snd (station_report Site.lxml (Site.http (Response 503 "")) 46086 Site.fresh))
    !! "reports/46086/1572900600.0.pickle"
  = Some (PickledReport (mkReport (DT.mk 2019 11 4 20 50) (Some ["4.2"; "ft"]) None None
                           (Some ["38"; "deg"]) None))
  /\ "reports/46086"
     ∈ dirs (snd (station_report Site.lxml (Site.http (Response 503 "")) 46086 Site.fresh)).
Proof.
  apply (station_report_persists Site.lxml (Site.http (Response 503 "")) 46086 Site.fresh
           (mkReport (DT.mk 2019 11 4 20 50) (Some ["4.2"; "ft"]) None None
              (Some ["38"; "deg"]) None)).
  vm_compute. reflexivity.
Defined.

Lemma station_report_tokenized_witness :
  tokenized (mkReport (DT.mk 2019 11 4 20 50) (Some ["4.2"; "ft"]) None None
               (Some ["38"; "deg"]) None).
Proof.
  apply (station_report_tokenized Site.lxml (Site.http (Response 503 "")) 46086
           Site.fresh _
           (snd (station_report Site.lxml (Site.http (Response 503 "")) 46086 Site.fresh))).
  vm_compute. reflexivity.
Defined.

Lemma station_list_nonneg_witness : Forall (fun n => 0 <= n) [46086; 46086; 41001].
Proof.
  apply (station_list_nonneg Site.lxml (Site.http (Response 503 "")) Site.fresh _
           (snd (station_list Site.lxml (Site.http (Response 503 "")) Site.fresh))).
  vm_compute. reflexivity.
Defined.

Lemma run_keys_witness :
  dom (<[41001 := None]>
         (<[46086 := Some (mkReport (DT.mk 2019 11 4 20 50) (Some ["4.2"; "ft"]) None
                             None (Some ["38"; "deg"]) None)]>
            (∅ : gmap Z (option StationReport))))
  = list_to_set [46086; 46086; 41001].
Proof.
  apply (run_keys Site.lxml (Site.http (Response 503 "")) Site.fresh [46086; 46086; 41001]
           (snd (station_list Site.lxml (Site.http (Response 503 "")) Site.fresh)) _
           (snd (run Site.lxml (Site.http (Response 503 "")) Site.fresh))).
  - vm_compute. reflexivity.
  - vm_compute. reflexivity.
Defined.


Lemma run_without_index_witness :
  run Site.lxml (fun _ _ => Response 404 "") Site.fresh
  = (Raise TypeError, mkWorld ∅ {["./cache"; "stations"]} [(index_url, [])]).
Proof.
  apply run_without_index. vm_compute. reflexivity.
Defined.

Lemma update_reports_outcome_witness :
  update_reports Site.lxml (Site.http (Response 503 ""))
    (fun _ _ => raise TimeoutError) Site.fresh
  = (Raise AttributeError,
     snd (run Site.lxml (Site.http (Response 503 "")) Site.fresh)).
Proof.
  apply (update_reports_outcome Site.lxml (Site.http (Response 503 ""))
           (fun _ _ => raise TimeoutError) Site.fresh [46086; 46086; 41001]
           (snd (station_list Site.lxml (Site.http (Response 503 "")) Site.fresh))
           [Some (mkReport (DT.mk 2019 11 4 20 50) (Some ["4.2"; "ft"]) None None
                    (Some ["38"; "deg"]) None);
            Some (mkReport (DT.mk 2019 11 4 20 50) (Some ["4.2"; "ft"]) None None
                    (Some ["38"; "deg"]) None);
            None]);
    vm_compute; reflexivity.
Defined.

